(** * FerroCP: the C interface [ferrocp.h] and its C++ wrapper [ferrocp.hpp]

    The repository's sources are the two headers.  [ferrocp.h] declares the
    C entry points of the copy engine (their bodies live in the engine and are
    not part of the sources); [ferrocp.hpp] implements, inline, the RAII and
    exception layer on top of them.  The wrapper is embedded as functions in
    a state-and-exception monad over the state of the C library, which is
    left abstract: every statement below is quantified over all behaviours of
    the declared entry points. *)

From Stdlib Require Import ZArith List String Ascii Bool Lia Floats.
From Stdlib Require Import Decimal DecimalString DecimalPos.
Import ListNotations.

Open Scope string_scope.
Open Scope Z_scope.

(** ** Machine types *)

(** [int] is 32 bits wide, [uint64_t] 64; both are carried as [Z]. *)
Definition is_int (z : Z) : Prop := - 2 ^ 31 <= z < 2 ^ 31.
Definition is_uint64 (z : Z) : Prop := 0 <= z < 2 ^ 64.

Definition is_intb (z : Z) : bool := (- 2 ^ 31 <=? z) && (z <? 2 ^ 31).

(** Conversion of a [uint64_t] to the signed 64-bit representation of
    [std::chrono::milliseconds]: values from [2^63] on wrap to negatives. *)
Definition to_int64 (z : Z) : Z := (z + 2 ^ 63) mod 2 ^ 64 - 2 ^ 63.

(** A [const char*]: [None] is the null pointer, [Some s] points to the
    null-terminated characters [s]. *)
Definition c_str := option string.

(** [p ? p : d] for a C string converted to a [std::string]. *)
Definition or_string (p : c_str) (d : string) : string :=
  match p with
  | Some s => s
  | None => d
  end.

(** ** ferrocp.h *)

Module C.

Inductive ferrocp_copy_mode_t : Set :=
| FERROCP_MODE_COPY
| FERROCP_MODE_MOVE
| FERROCP_MODE_SYNC.

Definition copy_mode_value (m : ferrocp_copy_mode_t) : Z :=
  match m with
  | FERROCP_MODE_COPY => 0
  | FERROCP_MODE_MOVE => 1
  | FERROCP_MODE_SYNC => 2
  end.

Inductive ferrocp_device_type_t : Set :=
| FERROCP_DEVICE_UNKNOWN
| FERROCP_DEVICE_HDD
| FERROCP_DEVICE_SSD
| FERROCP_DEVICE_NETWORK
| FERROCP_DEVICE_RAMDISK.

Definition device_type_value (d : ferrocp_device_type_t) : Z :=
  match d with
  | FERROCP_DEVICE_UNKNOWN => 0
  | FERROCP_DEVICE_HDD => 1
  | FERROCP_DEVICE_SSD => 2
  | FERROCP_DEVICE_NETWORK => 3
  | FERROCP_DEVICE_RAMDISK => 4
  end.

Inductive ferrocp_error_code_t : Set :=
| FERROCP_SUCCESS
| FERROCP_ERROR_GENERIC
| FERROCP_ERROR_FILE_NOT_FOUND
| FERROCP_ERROR_PERMISSION_DENIED
| FERROCP_ERROR_INSUFFICIENT_SPACE
| FERROCP_ERROR_INVALID_PATH
| FERROCP_ERROR_NETWORK
| FERROCP_ERROR_COMPRESSION
| FERROCP_ERROR_VERIFICATION
| FERROCP_ERROR_CANCELLED
| FERROCP_ERROR_INVALID_ARGUMENT
| FERROCP_ERROR_OUT_OF_MEMORY
| FERROCP_ERROR_TIMEOUT.

(** The enumerators' values, as the header assigns them. *)
Definition error_code_value (k : ferrocp_error_code_t) : Z :=
  match k with
  | FERROCP_SUCCESS => 0
  | FERROCP_ERROR_GENERIC => 1
  | FERROCP_ERROR_FILE_NOT_FOUND => 2
  | FERROCP_ERROR_PERMISSION_DENIED => 3
  | FERROCP_ERROR_INSUFFICIENT_SPACE => 4
  | FERROCP_ERROR_INVALID_PATH => 5
  | FERROCP_ERROR_NETWORK => 6
  | FERROCP_ERROR_COMPRESSION => 7
  | FERROCP_ERROR_VERIFICATION => 8
  | FERROCP_ERROR_CANCELLED => 9
  | FERROCP_ERROR_INVALID_ARGUMENT => 10
  | FERROCP_ERROR_OUT_OF_MEMORY => 11
  | FERROCP_ERROR_TIMEOUT => 12
  end.

(** The enumerators in the order of their declaration. *)
Definition error_codes : list ferrocp_error_code_t :=
  [ FERROCP_SUCCESS; FERROCP_ERROR_GENERIC; FERROCP_ERROR_FILE_NOT_FOUND;
    FERROCP_ERROR_PERMISSION_DENIED; FERROCP_ERROR_INSUFFICIENT_SPACE;
    FERROCP_ERROR_INVALID_PATH; FERROCP_ERROR_NETWORK;
    FERROCP_ERROR_COMPRESSION; FERROCP_ERROR_VERIFICATION;
    FERROCP_ERROR_CANCELLED; FERROCP_ERROR_INVALID_ARGUMENT;
    FERROCP_ERROR_OUT_OF_MEMORY; FERROCP_ERROR_TIMEOUT ].

(** The enumerator an [int] denotes, if any. *)
Definition error_code_of_int (c : Z) : option ferrocp_error_code_t :=
  find (fun k => error_code_value k =? c) error_codes.

Inductive ferrocp_performance_rating_t : Set :=
| FERROCP_PERFORMANCE_POOR
| FERROCP_PERFORMANCE_FAIR
| FERROCP_PERFORMANCE_GOOD
| FERROCP_PERFORMANCE_EXCELLENT.

Definition performance_rating_value (r : ferrocp_performance_rating_t) : Z :=
  match r with
  | FERROCP_PERFORMANCE_POOR => 0
  | FERROCP_PERFORMANCE_FAIR => 1
  | FERROCP_PERFORMANCE_GOOD => 2
  | FERROCP_PERFORMANCE_EXCELLENT => 3
  end.

(** [typedef uint64_t ferrocp_engine_handle_t]. *)
Definition ferrocp_engine_handle_t := Z.

Record ferrocp_result_t : Type := {
  error_code : Z;
  error_message : c_str;
  error_details : c_str
}.

Record ferrocp_stats_t : Type := {
  files_copied : Z;
  directories_created : Z;
  bytes_copied : Z;
  files_skipped : Z;
  errors : Z;
  duration_ms : Z;
  transfer_rate_mbps : float;
  efficiency_percent : float
}.

Record ferrocp_device_info_t : Type := {
  device_type : c_str;
  filesystem : c_str;
  total_space : Z;
  available_space : Z;
  read_speed_mbps : float;
  write_speed_mbps : float
}.

Record ferrocp_copy_request_t : Type := {
  source : c_str;
  destination : c_str;
  mode : Z;
  compress : Z;
  preserve_metadata : Z;
  verify_copy : Z;
  threads : Z;
  buffer_size : Z
}.

(** [ferrocp_result_t result = {}] and [ferrocp_device_info_t c_info = {}]. *)
Definition zero_result : ferrocp_result_t :=
  {| error_code := 0; error_message := None; error_details := None |}.

Definition zero_device_info : ferrocp_device_info_t :=
  {| device_type := None; filesystem := None; total_space := 0;
     available_space := 0; read_speed_mbps := 0%float;
     write_speed_mbps := 0%float |}.

(** The entry points the wrapper calls.  Only their declarations are in the
    header, so each is a parameter: a function of the library's state [W]
    that returns what the C function returns, the new contents of the
    structure it fills through a pointer, and the next state. *)
Record library (W : Type) : Type := {
  ferrocp_init : W -> Z * W;
  ferrocp_cleanup : W -> W;
  ferrocp_version : W -> string;
  ferrocp_engine_create : W -> ferrocp_engine_handle_t * W;
  ferrocp_engine_destroy : ferrocp_engine_handle_t -> W -> W;
  ferrocp_copy :
    ferrocp_engine_handle_t -> ferrocp_copy_request_t -> ferrocp_result_t ->
    W -> Z * ferrocp_result_t * W;
  ferrocp_get_device_info :
    string -> ferrocp_device_info_t -> W -> Z * ferrocp_device_info_t * W;
  ferrocp_free_device_info : ferrocp_device_info_t -> W -> W;
  ferrocp_free_string : string -> W -> W;
  ferrocp_free_result : ferrocp_result_t -> W -> W;
  ferrocp_get_file_size : string -> W -> Z;
  ferrocp_path_exists : string -> W -> Z;
  ferrocp_is_directory : string -> W -> Z;
  ferrocp_is_file : string -> W -> Z;
  ferrocp_join_paths : string -> string -> W -> c_str * W;
  ferrocp_normalize_path : string -> W -> c_str * W
}.

Arguments ferrocp_init {W}.
Arguments ferrocp_cleanup {W}.
Arguments ferrocp_version {W}.
Arguments ferrocp_engine_create {W}.
Arguments ferrocp_engine_destroy {W}.
Arguments ferrocp_copy {W}.
Arguments ferrocp_get_device_info {W}.
Arguments ferrocp_free_device_info {W}.
Arguments ferrocp_free_string {W}.
Arguments ferrocp_free_result {W}.
Arguments ferrocp_get_file_size {W}.
Arguments ferrocp_path_exists {W}.
Arguments ferrocp_is_directory {W}.
Arguments ferrocp_is_file {W}.
Arguments ferrocp_join_paths {W}.
Arguments ferrocp_normalize_path {W}.

(** One call across the boundary, as it is seen from outside. *)
Inductive call : Type :=
| call_init
| call_cleanup
| call_engine_create
| call_engine_destroy (handle : ferrocp_engine_handle_t)
| call_copy (handle : ferrocp_engine_handle_t) (request : ferrocp_copy_request_t)
| call_get_device_info (path : string)
| call_free_device_info (device_info : ferrocp_device_info_t)
| call_free_string (ptr : string)
| call_free_result (result : ferrocp_result_t)
| call_join_paths (path1 path2 : string)
| call_normalize_path (path : string)
| call_progress_callback
    (progress_percent : float) (bytes_copied total_bytes : Z)
    (current_file : string)
| call_error_callback (error_code : Z) (error_message file_path : string).

End C.

Coercion C.error_code_value : C.ferrocp_error_code_t >-> Z.
Coercion C.copy_mode_value : C.ferrocp_copy_mode_t >-> Z.
Coercion C.device_type_value : C.ferrocp_device_type_t >-> Z.
Coercion C.performance_rating_value : C.ferrocp_performance_rating_t >-> Z.

(** ** The parts of the C++ standard library the wrapper relies on *)

Module std.

(** The two exceptions [std::stoi] throws. *)
Inductive logic_error : Set :=
| invalid_argument
| out_of_range.

(** [std::isspace] in the "C" locale: space, and the controls from
    horizontal tab (9) to carriage return (13). *)
Definition isspace (c : ascii) : bool :=
  let n := Z.of_N (N_of_ascii c) in
  (n =? 32) || ((9 <=? n) && (n <=? 13)).

(** The value of a decimal digit, ['0'] being 48. *)
Definition digit (c : ascii) : option Z :=
  let n := Z.of_N (N_of_ascii c) in
  if (48 <=? n) && (n <=? 57) then Some (n - 48) else None.

Fixpoint skip_space (s : string) : string :=
  match s with
  | String c s' => if isspace c then skip_space s' else s
  | EmptyString => s
  end.

(** The longest run of leading digits of [s], read in base ten after the
    digits already accumulated in [acc]. *)
Fixpoint digits (s : string) (acc : Z) : Z :=
  match s with
  | String c s' =>
      match digit c with
      | Some d => digits s' (10 * acc + d)
      | None => acc
      end
  | EmptyString => acc
  end.

Definition starts_with_digit (s : string) : bool :=
  match s with
  | String c _ => match digit c with Some _ => true | None => false end
  | EmptyString => false
  end.

(** The integer [strtol(str, &end, 10)] reads: leading white space, an
    optional sign, then digits; [None] when there is no digit to convert.
    The value is the mathematical one, before any range check. *)
Definition parse_decimal (str : string) : option Z :=
  let s := skip_space str in
  let (negative, s) :=
    match s with
    | String "-"%char s' => (true, s')
    | String "+"%char s' => (false, s')
    | _ => (false, s)
    end in
  if starts_with_digit s
  then Some (if negative then - digits s 0 else digits s 0)
  else None.

(** [std::stoi(str)]: [std::invalid_argument] when no conversion could be
    performed, [std::out_of_range] when the value does not fit an [int]. *)
Definition stoi (str : string) : logic_error + Z :=
  match parse_decimal str with
  | None => inl invalid_argument
  | Some v => if is_intb v then inr v else inl out_of_range
  end.

(** [str.c_str()] as the callee reads it: the characters of the string up
    to its first null character, which ends a C string. *)
Fixpoint c_str (str : string) : string :=
  match str with
  | String c str' => if Ascii.eqb c "000" then "" else String c (c_str str')
  | EmptyString => ""
  end.

(** [std::to_string(n)] for an [int]: its decimal numeral, with a leading
    minus sign when negative. *)
Definition to_string (n : Z) : string := NilZero.string_of_int (Z.to_int n).

End std.

(** ** ferrocp.hpp *)

Module ferrocp.

(** *** Exception classes *)

Inductive exception_class : Set :=
| class_Exception
| class_FileNotFoundException
| class_PermissionDeniedException
| class_InsufficientSpaceException.

(** An exception object of the hierarchy: its dynamic class, the message
    [what()] returns and the private [error_code_]. *)
Record Exception : Type := {
  dynamic_class : exception_class;
  what : string;
  error_code_ : Z
}.

Definition error_code (e : Exception) : Z := error_code_ e.

(** [Exception(message, error_code)]. *)
Definition make_Exception (message : string) (error_code : Z) : Exception :=
  {| dynamic_class := class_Exception; what := message;
     error_code_ := error_code |}.

(** [Exception(message)], the code defaulting to [FERROCP_ERROR_GENERIC]. *)
Definition make_Exception_default (message : string) : Exception :=
  make_Exception message C.FERROCP_ERROR_GENERIC.

Definition FileNotFoundException (path : string) : Exception :=
  {| dynamic_class := class_FileNotFoundException;
     what := "File not found: " ++ path;
     error_code_ := C.FERROCP_ERROR_FILE_NOT_FOUND |}.

Definition PermissionDeniedException (message : string) : Exception :=
  {| dynamic_class := class_PermissionDeniedException;
     what := "Permission denied: " ++ message;
     error_code_ := C.FERROCP_ERROR_PERMISSION_DENIED |}.

Definition InsufficientSpaceException (message : string) : Exception :=
  {| dynamic_class := class_InsufficientSpaceException;
     what := "Insufficient space: " ++ message;
     error_code_ := C.FERROCP_ERROR_INSUFFICIENT_SPACE |}.

(** What a wrapper function can throw. *)
Inductive throwable : Type :=
| thrown (e : Exception)
| thrown_std (e : std.logic_error).

(** *** Enums *)

(** [enum class CopyMode] has underlying type [int]: a value of the type is
    any [int] ([static_cast<CopyMode>(n)] is defined for each), three of
    them named, and [static_cast<int>(mode)] gives the integer back. *)
Record CopyMode : Set := static_cast_CopyMode { CopyMode_value : Z }.

Definition Copy : CopyMode := static_cast_CopyMode C.FERROCP_MODE_COPY.
Definition Move : CopyMode := static_cast_CopyMode C.FERROCP_MODE_MOVE.
Definition Sync : CopyMode := static_cast_CopyMode C.FERROCP_MODE_SYNC.

(** [enum class DeviceType] has underlying type [int], and the converting
    constructor of [DeviceInfo] casts an arbitrary [int] to it, so a value
    is its underlying integer; the enumerators are five of them. *)
Record DeviceType : Set := static_cast_DeviceType { DeviceType_value : Z }.

Definition Unknown : DeviceType := static_cast_DeviceType C.FERROCP_DEVICE_UNKNOWN.
Definition Hdd : DeviceType := static_cast_DeviceType C.FERROCP_DEVICE_HDD.
Definition Ssd : DeviceType := static_cast_DeviceType C.FERROCP_DEVICE_SSD.
Definition Network : DeviceType := static_cast_DeviceType C.FERROCP_DEVICE_NETWORK.
Definition RamDisk : DeviceType := static_cast_DeviceType C.FERROCP_DEVICE_RAMDISK.

(** [enum class PerformanceRating], likewise its underlying integer. *)
Record PerformanceRating : Set :=
  static_cast_PerformanceRating { PerformanceRating_value : Z }.

Definition Poor : PerformanceRating :=
  static_cast_PerformanceRating C.FERROCP_PERFORMANCE_POOR.
Definition Fair : PerformanceRating :=
  static_cast_PerformanceRating C.FERROCP_PERFORMANCE_FAIR.
Definition Good : PerformanceRating :=
  static_cast_PerformanceRating C.FERROCP_PERFORMANCE_GOOD.
Definition Excellent : PerformanceRating :=
  static_cast_PerformanceRating C.FERROCP_PERFORMANCE_EXCELLENT.

(** *** Data structures *)

Record CopyStats : Type := {
  files_copied : Z;
  directories_created : Z;
  bytes_copied : Z;
  files_skipped : Z;
  errors : Z;
  duration : Z;
  transfer_rate_mbps : float;
  efficiency_percent : float
}.

(** [CopyStats() = default], that is [CopyStats{}]: the member initialisers. *)
Definition CopyStats_default : CopyStats :=
  {| files_copied := 0; directories_created := 0; bytes_copied := 0;
     files_skipped := 0; errors := 0; duration := 0;
     transfer_rate_mbps := 0%float; efficiency_percent := 0%float |}.

(** [explicit CopyStats(const ferrocp_stats_t& c_stats)]. *)
Definition CopyStats_of (c_stats : C.ferrocp_stats_t) : CopyStats :=
  {| files_copied := C.files_copied c_stats;
     directories_created := C.directories_created c_stats;
     bytes_copied := C.bytes_copied c_stats;
     files_skipped := C.files_skipped c_stats;
     errors := C.errors c_stats;
     duration := to_int64 (C.duration_ms c_stats);
     transfer_rate_mbps := C.transfer_rate_mbps c_stats;
     efficiency_percent := C.efficiency_percent c_stats |}.

Record DeviceInfo : Type := {
  device_type : DeviceType;
  filesystem : string;
  total_space : Z;
  available_space : Z;
  read_speed_mbps : float;
  write_speed_mbps : float
}.

Definition DeviceInfo_default : DeviceInfo :=
  {| device_type := Unknown; filesystem := ""; total_space := 0;
     available_space := 0; read_speed_mbps := 0%float;
     write_speed_mbps := 0%float |}.

(** [explicit DeviceInfo(const ferrocp_device_info_t& c_info)].  The first
    member initialiser calls [std::stoi], which may throw; the object is
    then not constructed. *)
Definition DeviceInfo_of (c_info : C.ferrocp_device_info_t)
  : std.logic_error + DeviceInfo :=
  match
    match C.device_type c_info with
    | Some s => std.stoi s
    | None => inr 0
    end
  with
  | inl e => inl e
  | inr n =>
      inr {| device_type := static_cast_DeviceType n;
             filesystem := or_string (C.filesystem c_info) "";
             total_space := C.total_space c_info;
             available_space := C.available_space c_info;
             read_speed_mbps := C.read_speed_mbps c_info;
             write_speed_mbps := C.write_speed_mbps c_info |}
  end.

Record CopyRequest : Type := {
  source : string;
  destination : string;
  mode : CopyMode;
  compress : bool;
  preserve_metadata : bool;
  verify_copy : bool;
  threads : Z;
  buffer_size : Z
}.

(** [CopyRequest(src, dst)]: the two paths, the other members from their
    default member initialisers. *)
Definition make_CopyRequest (src dst : string) : CopyRequest :=
  {| source := src; destination := dst; mode := Copy; compress := false;
     preserve_metadata := true; verify_copy := false; threads := 0;
     buffer_size := 0 |}.

(** *** Control flow: state of the library, calls made, exceptions *)

(** What the wrapper acts on: the state of the C library and the sequence
    of calls that crossed the boundary so far, oldest first. *)
Record world (W : Type) : Type := {
  lib_state : W;
  calls : list C.call
}.

Arguments lib_state {W}.
Arguments calls {W}.

Inductive outcome (A : Type) : Type :=
| Returns (a : A)
| Throws (t : throwable).

Arguments Returns {A}.
Arguments Throws {A}.

(** A C++ function body: from a world to a returned value or a thrown
    exception, and the world it leaves. *)
Definition M (W A : Type) : Type := world W -> outcome A * world W.

Definition ret {W A : Type} (a : A) : M W A := fun w => (Returns a, w).

Definition throw {W A : Type} (t : throwable) : M W A := fun w => (Throws t, w).

Definition bind {W A B : Type} (m : M W A) (k : A -> M W B) : M W B :=
  fun w =>
    match m w with
    | (Returns a, w') => k a w'
    | (Throws t, w') => (Throws t, w')
    end.

Notation "x <- m ;; k" := (bind m (fun x => k))
  (at level 61, m at next level, right associativity).
Notation "m ;; k" := (bind m (fun _ => k))
  (at level 61, right associativity).

(** A block [{ T obj; body }] around an object with a destructor, for a
    body that uses the object without changing it: when the constructor
    throws there is no object and no destructor call; otherwise the
    destructor runs when the block is left, by return or by exception. *)
Definition scoped {W T A : Type}
  (ctor : M W T) (dtor : T -> M W unit) (body : T -> M W A) : M W A :=
  fun w =>
    match ctor w with
    | (Throws t, w1) => (Throws t, w1)
    | (Returns obj, w1) =>
        let (r, w2) := body obj w1 in (r, snd (dtor obj w2))
    end.

(** The same block for a body that may change the object (an [Engine] can
    be moved from or assigned to): the body also says how it leaves the
    object, and the destructor runs on the object as it then is. *)
Definition scoped_object {W T A : Type}
  (ctor : M W T) (dtor : T -> M W unit)
  (body : T -> world W -> (outcome A * T) * world W) : M W A :=
  fun w =>
    match ctor w with
    | (Throws t, w1) => (Throws t, w1)
    | (Returns obj, w1) =>
        let '(r, obj', w2) := body obj w1 in (r, snd (dtor obj' w2))
    end.

(** *** Callback types *)

(** A [std::function] is empty ([nullptr]) or holds a callable, which may
    act on the world. *)
Definition ProgressCallback (W : Type) : Type :=
  option (float -> Z -> Z -> string -> M W unit).

Definition ErrorCallback (W : Type) : Type :=
  option (Z -> string -> string -> M W unit).

Section Wrapper.

Context {W : Type} (lib : C.library W).

(** The calls into the library: each applies the entry point to the
    library's state and records the call. *)
Definition record (c : C.call) (l : W) (w : world W) : world W :=
  {| lib_state := l; calls := (calls w ++ [c])%list |}.

Definition ferrocp_init : M W Z :=
  fun w =>
    let (r, l) := C.ferrocp_init lib (lib_state w) in
    (Returns r, record C.call_init l w).

Definition ferrocp_cleanup : M W unit :=
  fun w =>
    (Returns tt, record C.call_cleanup (C.ferrocp_cleanup lib (lib_state w)) w).

Definition ferrocp_version : M W string :=
  fun w => (Returns (C.ferrocp_version lib (lib_state w)), w).

Definition ferrocp_engine_create : M W Z :=
  fun w =>
    let (h, l) := C.ferrocp_engine_create lib (lib_state w) in
    (Returns h, record C.call_engine_create l w).

Definition ferrocp_engine_destroy (handle : Z) : M W unit :=
  fun w =>
    (Returns tt,
     record (C.call_engine_destroy handle)
       (C.ferrocp_engine_destroy lib handle (lib_state w)) w).

Definition ferrocp_copy
  (handle : Z) (request : C.ferrocp_copy_request_t) (result : C.ferrocp_result_t)
  : M W (Z * C.ferrocp_result_t) :=
  fun w =>
    let '(r, result', l) := C.ferrocp_copy lib handle request result (lib_state w) in
    (Returns (r, result'), record (C.call_copy handle request) l w).

Definition ferrocp_free_result (result : C.ferrocp_result_t) : M W unit :=
  fun w =>
    (Returns tt,
     record (C.call_free_result result)
       (C.ferrocp_free_result lib result (lib_state w)) w).

Definition ferrocp_get_device_info
  (path : string) (device_info : C.ferrocp_device_info_t)
  : M W (Z * C.ferrocp_device_info_t) :=
  fun w =>
    let '(r, device_info', l) :=
      C.ferrocp_get_device_info lib path device_info (lib_state w) in
    (Returns (r, device_info'), record (C.call_get_device_info path) l w).

Definition ferrocp_free_device_info (device_info : C.ferrocp_device_info_t)
  : M W unit :=
  fun w =>
    (Returns tt,
     record (C.call_free_device_info device_info)
       (C.ferrocp_free_device_info lib device_info (lib_state w)) w).

Definition ferrocp_free_string (ptr : string) : M W unit :=
  fun w =>
    (Returns tt,
     record (C.call_free_string ptr)
       (C.ferrocp_free_string lib ptr (lib_state w)) w).

Definition ferrocp_join_paths (path1 path2 : string) : M W c_str :=
  fun w =>
    let (r, l) := C.ferrocp_join_paths lib path1 path2 (lib_state w) in
    (Returns r, record (C.call_join_paths path1 path2) l w).

Definition ferrocp_normalize_path (path : string) : M W c_str :=
  fun w =>
    let (r, l) := C.ferrocp_normalize_path lib path (lib_state w) in
    (Returns r, record (C.call_normalize_path path) l w).

(** *** Library management *)

(** [class Library] has no data member. *)
Inductive Library : Set := Library_object.

Definition Library_ctor : M W Library :=
  r <- ferrocp_init ;;
  if negb (r =? 0)
  then throw (thrown (make_Exception_default "Failed to initialize FerroCP library"))
  else ret Library_object.

Definition Library_dtor (this : Library) : M W unit :=
  ferrocp_cleanup.

Definition Library_version (this : Library) : M W string :=
  ferrocp_version.

(** *** Engine *)

Record Engine : Set := { handle_ : Z }.

Definition Engine_ctor : M W Engine :=
  h <- ferrocp_engine_create ;;
  if h =? 0
  then throw (thrown (make_Exception_default "Failed to create FerroCP engine"))
  else ret {| handle_ := h |}.

Definition Engine_dtor (this : Engine) : M W unit :=
  if negb (handle_ this =? 0)
  then ferrocp_engine_destroy (handle_ this)
  else ret tt.

(** [Engine(Engine&& other)]: the new object, and [other] as it is left. *)
Definition Engine_move_ctor (other : Engine) : Engine * Engine :=
  ({| handle_ := handle_ other |}, {| handle_ := 0 |}).

(** Objects of class [Engine] by address: what is needed to tell
    [this != &other] in the move assignment. *)
Definition set_object (objects : nat -> Engine) (address : nat) (e : Engine)
  : nat -> Engine :=
  fun a => if Nat.eqb a address then e else objects a.

(** [Engine& operator=(Engine&& other) noexcept], the two objects given by
    their addresses; it returns the objects as it leaves them. *)
Definition Engine_move_assign (this other : nat) (objects : nat -> Engine)
  : M W (nat -> Engine) :=
  if negb (Nat.eqb this other)
  then
    (if negb (handle_ (objects this) =? 0)
     then ferrocp_engine_destroy (handle_ (objects this))
     else ret tt) ;;
    let objects := set_object objects this {| handle_ := handle_ (objects other) |} in
    let objects := set_object objects other {| handle_ := 0 |} in
    ret objects
  else ret objects.

Definition throw_exception_for_error_code (error_code : Z) (message : string)
  : M W unit :=
  if error_code =? C.FERROCP_ERROR_FILE_NOT_FOUND
  then throw (thrown (FileNotFoundException message))
  else if error_code =? C.FERROCP_ERROR_PERMISSION_DENIED
  then throw (thrown (PermissionDeniedException message))
  else if error_code =? C.FERROCP_ERROR_INSUFFICIENT_SPACE
  then throw (thrown (InsufficientSpaceException message))
  else throw (thrown (make_Exception message error_code)).

(** The aggregate [c_request] that [copy] builds from the request. *)
Definition c_request_of (request : CopyRequest) : C.ferrocp_copy_request_t :=
  {| C.source := Some (std.c_str (source request));
     C.destination := Some (std.c_str (destination request));
     C.mode := CopyMode_value (mode request);
     C.compress := if compress request then 1 else 0;
     C.preserve_metadata := if preserve_metadata request then 1 else 0;
     C.verify_copy := if verify_copy request then 1 else 0;
     C.threads := threads request;
     C.buffer_size := buffer_size request |}.

Definition copy (this : Engine) (request : CopyRequest) : M W CopyStats :=
  let c_request := c_request_of request in
  let result := C.zero_result in
  r <- ferrocp_copy (handle_ this) c_request result ;;
  let (error_code, result) := r in
  (if negb (error_code =? 0)
   then
     let message := or_string (C.error_message result) "Unknown error" in
     ferrocp_free_result result ;;
     throw_exception_for_error_code error_code message
   else ret tt) ;;
  ferrocp_free_result result ;;
  ret CopyStats_default.

Definition copy_with_progress
  (this : Engine) (request : CopyRequest)
  (progress_callback : ProgressCallback W) (error_callback : ErrorCallback W)
  : M W CopyStats :=
  copy this request.

(** *** Utility functions *)

Definition get_device_info (path : string) : M W DeviceInfo :=
  let c_info := C.zero_device_info in
  r <- ferrocp_get_device_info (std.c_str path) c_info ;;
  let (error_code, c_info) := r in
  (if negb (error_code =? 0)
   then throw (thrown (make_Exception ("Failed to get device info for: " ++ path) error_code))
   else ret tt) ;;
  match DeviceInfo_of c_info with
  | inl e => throw (thrown_std e)
  | inr info =>
      ferrocp_free_device_info c_info ;;
      ret info
  end.

Definition path_exists (path : string) : M W bool :=
  fun w =>
    (Returns (negb (C.ferrocp_path_exists lib (std.c_str path) (lib_state w) =? 0)),
     w).

Definition is_directory (path : string) : M W bool :=
  fun w =>
    (Returns (negb (C.ferrocp_is_directory lib (std.c_str path) (lib_state w) =? 0)),
     w).

Definition is_file (path : string) : M W bool :=
  fun w =>
    (Returns (negb (C.ferrocp_is_file lib (std.c_str path) (lib_state w) =? 0)),
     w).

Definition get_file_size (path : string) : M W Z :=
  fun w => (Returns (C.ferrocp_get_file_size lib (std.c_str path) (lib_state w)), w).

Definition join_paths (path1 path2 : string) : M W string :=
  result <- ferrocp_join_paths (std.c_str path1) (std.c_str path2) ;;
  match result with
  | None =>
      throw (thrown (make_Exception_default
                       ("Failed to join paths: " ++ path1 ++ " and " ++ path2)))
  | Some joined =>
      ferrocp_free_string joined ;;
      ret joined
  end.

Definition normalize_path (path : string) : M W string :=
  result <- ferrocp_normalize_path (std.c_str path) ;;
  match result with
  | None =>
      throw (thrown (make_Exception_default ("Failed to normalize path: " ++ path)))
  | Some normalized =>
      ferrocp_free_string normalized ;;
      ret normalized
  end.

End Wrapper.

End ferrocp.

(** ** A library with scripted answers

    Closed instances of the statements below are taken at a library whose
    entry points ignore their state and answer as a script says. *)

Module Scripted.

Record script : Type := {
  init_returns : Z;
  engine_create_returns : Z;
  copy_returns : Z;
  copy_fills : C.ferrocp_result_t;
  get_device_info_returns : Z;
  get_device_info_fills : C.ferrocp_device_info_t;
  join_paths_returns : c_str;
  normalize_path_returns : c_str
}.

Definition library (s : script) : C.library unit :=
  {| C.ferrocp_init := fun w => (init_returns s, w);
     C.ferrocp_cleanup := fun w => w;
     C.ferrocp_version := fun _ => "0.2.0";
     C.ferrocp_engine_create := fun w => (engine_create_returns s, w);
     C.ferrocp_engine_destroy := fun _ w => w;
     C.ferrocp_copy := fun _ _ _ w => (copy_returns s, copy_fills s, w);
     C.ferrocp_get_device_info :=
       fun _ _ w => (get_device_info_returns s, get_device_info_fills s, w);
     C.ferrocp_free_device_info := fun _ w => w;
     C.ferrocp_free_string := fun _ w => w;
     C.ferrocp_free_result := fun _ w => w;
     C.ferrocp_get_file_size := fun _ _ => 0;
     C.ferrocp_path_exists := fun _ _ => 1;
     C.ferrocp_is_directory := fun _ _ => 1;
     C.ferrocp_is_file := fun _ _ => 0;
     C.ferrocp_join_paths := fun _ _ w => (join_paths_returns s, w);
     C.ferrocp_normalize_path := fun _ w => (normalize_path_returns s, w) |}.

(** Every call succeeds; the engine created has handle 1. *)
Definition succeeding : script :=
  {| init_returns := 0;
     engine_create_returns := 1;
     copy_returns := 0;
     copy_fills := C.zero_result;
     get_device_info_returns := 0;
     get_device_info_fills :=
       {| C.device_type := Some "2"; C.filesystem := Some "ext4";
          C.total_space := 1000; C.available_space := 400;
          C.read_speed_mbps := 500%float; C.write_speed_mbps := 500%float |};
     join_paths_returns := Some "a/b";
     normalize_path_returns := Some "a/b" |}.

(** [ferrocp_copy] fails with [code] and reports [message]. *)
Definition failing_copy (code : Z) (message : c_str) : script :=
  {| init_returns := 0;
     engine_create_returns := 1;
     copy_returns := code;
     copy_fills :=
       {| C.error_code := code; C.error_message := message;
          C.error_details := None |};
     get_device_info_returns := 0;
     get_device_info_fills := C.zero_device_info;
     join_paths_returns := None;
     normalize_path_returns := None |}.

(** Initialisation and engine creation fail. *)
Definition failing_init : script :=
  {| init_returns := 1;
     engine_create_returns := 0;
     copy_returns := 1;
     copy_fills := C.zero_result;
     get_device_info_returns := 5;
     get_device_info_fills := C.zero_device_info;
     join_paths_returns := None;
     normalize_path_returns := None |}.

(** [ferrocp_get_device_info] succeeds and gives the device type as the
    text [device_type]. *)
Definition reporting_device_type (device_type : string) : script :=
  {| init_returns := 0;
     engine_create_returns := 1;
     copy_returns := 0;
     copy_fills := C.zero_result;
     get_device_info_returns := 0;
     get_device_info_fills :=
       {| C.device_type := Some device_type; C.filesystem := Some "ntfs";
          C.total_space := 2000; C.available_space := 1500;
          C.read_speed_mbps := 150%float; C.write_speed_mbps := 150%float |};
     join_paths_returns := Some "a/b";
     normalize_path_returns := None |}.

Definition start : ferrocp.world unit :=
  {| ferrocp.lib_state := tt; ferrocp.calls := [] |}.

Definition engine : ferrocp.Engine := {| ferrocp.handle_ := 1 |}.

(** The request of the spec's scenario: a source tree of three files and
    one subdirectory, an empty destination, verification switched on. *)
Definition tree_request : ferrocp.CopyRequest :=
  {| ferrocp.source := "tree"; ferrocp.destination := "backup";
     ferrocp.mode := ferrocp.Copy; ferrocp.compress := false;
     ferrocp.preserve_metadata := true; ferrocp.verify_copy := true;
     ferrocp.threads := 0; ferrocp.buffer_size := 0 |}.

(** Callbacks that leave a mark in the sequence of calls when invoked. *)
Definition marking_progress : ferrocp.ProgressCallback unit :=
  Some (fun percent bytes total file w =>
          (ferrocp.Returns tt,
           ferrocp.record (C.call_progress_callback percent bytes total file)
             (ferrocp.lib_state w) w)).

Definition marking_error : ferrocp.ErrorCallback unit :=
  Some (fun code message path w =>
          (ferrocp.Returns tt,
           ferrocp.record (C.call_error_callback code message path)
             (ferrocp.lib_state w) w)).

End Scripted.

(** ** Notions the statements are about *)

Import ferrocp.

(** The computation [m], started in [w], throws the exception [e]. *)
Definition raises {W A : Type} (m : M W A) (w : world W) (e : Exception) : Prop :=
  exists w', m w = (Throws (thrown e), w').

(** The world after a call of [ferrocp_copy] that left the library in
    state [l], and after the [ferrocp_free_result] that follows it. *)
Definition after_copy {W : Type}
  (this : Engine) (request : CopyRequest) (l : W) (w : world W) : world W :=
  record (C.call_copy (handle_ this) (c_request_of request)) l w.

Definition after_free_result {W : Type} (lib : C.library W)
  (result : C.ferrocp_result_t) (w : world W) : world W :=
  record (C.call_free_result result)
    (C.ferrocp_free_result lib result (lib_state w)) w.

(** How an error code and a message are to appear in the exception: the
    class chosen by the code, the message after the prefix of that class. *)
Definition thrown_as (code : Z) (message : string) (e : Exception) : Prop :=
  (code = C.FERROCP_ERROR_FILE_NOT_FOUND ->
   dynamic_class e = class_FileNotFoundException /\
   what e = "File not found: " ++ message) /\
  (code = C.FERROCP_ERROR_PERMISSION_DENIED ->
   dynamic_class e = class_PermissionDeniedException /\
   what e = "Permission denied: " ++ message) /\
  (code = C.FERROCP_ERROR_INSUFFICIENT_SPACE ->
   dynamic_class e = class_InsufficientSpaceException /\
   what e = "Insufficient space: " ++ message) /\
  (code <> C.FERROCP_ERROR_FILE_NOT_FOUND ->
   code <> C.FERROCP_ERROR_PERMISSION_DENIED ->
   code <> C.FERROCP_ERROR_INSUFFICIENT_SPACE ->
   dynamic_class e = class_Exception /\ what e = message).

(** The reading under which the exception's message is the result's
    [error_message] itself, whatever the code. *)
Definition message_is_error_message {W : Type} (lib : C.library W)
  (this : Engine) (request : CopyRequest) (w : world W) : Prop :=
  forall code result l,
    C.ferrocp_copy lib (handle_ this) (c_request_of request) C.zero_result
      (lib_state w) = (code, result, l) ->
    code <> 0 ->
    exists e,
      raises (copy lib this request) w e /\
      error_code e = code /\
      C.error_message result = Some (what e).

(** A percentage within the closed interval from 0 to 100. *)
Definition is_percentage (x : float) : bool :=
  ((0 <=? x) && (x <=? 100))%float.

(** Modelled from the spec: the engine's computation of the efficiency
    metric is not part of the sources, which only declare the field that
    carries it.  The spec has it "always clamped to [0, 100]": a value above
    100 becomes 100, a value that is not at least 0 (a negative one, or the
    result of 0/0) becomes 0, any other value is kept. *)
Definition clamp_percent (x : float) : float :=
  if (100 <? x)%float then 100%float
  else if (0 <=? x)%float then x
  else 0%float.

(** Modelled from the spec: the efficiency percentage of an operation, "rate
    / device theoretical rate", the observed transfer rate as a fraction of
    the theoretical rate of the device, in percent and clamped. *)
Definition efficiency_of (transfer_rate theoretical_rate : float) : float :=
  clamp_percent (transfer_rate / theoretical_rate * 100)%float.

(** Modelled from the spec: the statistics the engine aggregates when an
    operation completes, as the C structure of the header: the counters,
    the duration, the observed rate and the efficiency computed from it
    and from the theoretical rate of the device. *)
Definition completed_stats
  (files_copied directories_created bytes_copied files_skipped errors
     duration_ms : Z)
  (transfer_rate theoretical_rate : float) : C.ferrocp_stats_t :=
  {| C.files_copied := files_copied;
     C.directories_created := directories_created;
     C.bytes_copied := bytes_copied;
     C.files_skipped := files_skipped;
     C.errors := errors;
     C.duration_ms := duration_ms;
     C.transfer_rate_mbps := transfer_rate;
     C.efficiency_percent := efficiency_of transfer_rate theoretical_rate |}.

(** A string without a null character: [c_str()] shows all of it. *)
Definition has_no_nul (s : string) : Prop := std.c_str s = s.

(** The three enumerators of [CopyMode]. *)
Definition is_CopyMode_enumerator (m : CopyMode) : Prop :=
  m = Copy \/ m = Move \/ m = Sync.

(** An [int] that is the value of an enumerator of [ferrocp_error_code_t]. *)
Definition in_taxonomy (c : Z) : Prop :=
  exists k : C.ferrocp_error_code_t, C.error_code_value k = c.

(** Modelled from the spec: the bodies of the C entry points are not part of
    the sources, which only declare them (returning [int]).  The spec's
    error taxonomy is closed, so the code an entry point reports, as its
    return value or in the result it fills, is the value of one of the
    thirteen enumerators. *)
Definition reports_taxonomy_codes {W : Type} (lib : C.library W) : Prop :=
  (forall l, in_taxonomy (fst (C.ferrocp_init lib l))) /\
  (forall handle request result l,
      in_taxonomy (fst (fst (C.ferrocp_copy lib handle request result l))) /\
      in_taxonomy
        (C.error_code (snd (fst (C.ferrocp_copy lib handle request result l))))) /\
  (forall path device_info l,
      in_taxonomy (fst (fst (C.ferrocp_get_device_info lib path device_info l)))).

(** [ferrocp_engine_create] is declared to return a [uint64_t]. *)
Definition creates_uint64_handles {W : Type} (lib : C.library W) : Prop :=
  forall l, is_uint64 (fst (C.ferrocp_engine_create lib l)).

(** Whether a call is the invocation of a callback. *)
Definition is_callback (c : C.call) : bool :=
  match c with
  | C.call_progress_callback _ _ _ _ => true
  | C.call_error_callback _ _ _ => true
  | _ => false
  end.

(** The block [{ Library library; Engine engine; return engine.copy(request); }]:
    the library initialised, an engine created, one copy made. *)
Definition copy_session {W : Type} (lib : C.library W) (request : CopyRequest)
  : M W CopyStats :=
  scoped (Library_ctor lib) (Library_dtor lib) (fun _ =>
    scoped (Engine_ctor lib) (Engine_dtor lib) (fun engine =>
      copy lib engine request)).

(** The call that destroys the engine of handle [h], if [h] is one. *)
Definition destroy_call (h : Z) : list C.call :=
  if h =? 0 then [] else [C.call_engine_destroy h].

(** A request as the C side expects it: both paths given, a mode among the
    three of [ferrocp_copy_mode_t], each flag 0 or 1. *)
Definition well_formed_request (r : C.ferrocp_copy_request_t) : Prop :=
  C.source r <> None /\
  C.destination r <> None /\
  (exists m : C.ferrocp_copy_mode_t, C.mode r = C.copy_mode_value m) /\
  (C.compress r = 0 \/ C.compress r = 1) /\
  (C.preserve_metadata r = 0 \/ C.preserve_metadata r = 1) /\
  (C.verify_copy r = 0 \/ C.verify_copy r = 1).

(** The five enumerators of [DeviceType]. *)
Definition is_enumerator (d : DeviceType) : Prop :=
  d = Unknown \/ d = Hdd \/ d = Ssd \/ d = Network \/ d = RamDisk.

(** A string made of white space only. *)
Fixpoint all_space (s : string) : bool :=
  match s with
  | String c s' => std.isspace c && all_space s'
  | EmptyString => true
  end.

(** ** Properties *)

(** *** Engine::copy *)

Lemma throw_exception_for_error_code_throws
  {W : Type} (code : Z) (message : string) (w : world W) :
  exists e,
    throw_exception_for_error_code code message w = (Throws (thrown e), w) /\
    error_code e = code /\ thrown_as code message e.
Proof.
  unfold throw_exception_for_error_code, throw, thrown_as.
  destruct (Z.eqb_spec code C.FERROCP_ERROR_FILE_NOT_FOUND) as [E2 | N2].
  { eexists; split; [reflexivity | ]. cbn in *. subst code.
    repeat split; intros; try discriminate; try reflexivity; congruence. }
  destruct (Z.eqb_spec code C.FERROCP_ERROR_PERMISSION_DENIED) as [E3 | N3].
  { eexists; split; [reflexivity | ]. cbn in *. subst code.
    repeat split; intros; try discriminate; try reflexivity; congruence. }
  destruct (Z.eqb_spec code C.FERROCP_ERROR_INSUFFICIENT_SPACE) as [E4 | N4].
  { eexists; split; [reflexivity | ]. cbn in *. subst code.
    repeat split; intros; try discriminate; try reflexivity; congruence. }
  eexists; split; [reflexivity | ]. cbn in *.
  repeat split; intros; try reflexivity; congruence.
Qed.

(** What [copy] does in terms of the answer of [ferrocp_copy]: on code 0 it
    frees the result and returns [CopyStats{}]; on any other code it frees
    the result, once, and leaves by the exception that
    [throw_exception_for_error_code] throws. *)
Lemma copy_cases
  {W : Type} (lib : C.library W) (this : Engine) (request : CopyRequest)
  (w : world W) (code : Z) (result : C.ferrocp_result_t) (l : W) :
  C.ferrocp_copy lib (handle_ this) (c_request_of request) C.zero_result
    (lib_state w) = (code, result, l) ->
  copy lib this request w =
  if code =? 0
  then (Returns CopyStats_default,
        after_free_result lib result (after_copy this request l w))
  else
    match
      throw_exception_for_error_code code
        (or_string (C.error_message result) "Unknown error")
        (after_free_result lib result (after_copy this request l w))
    with
    | (Returns _, w') => (Returns CopyStats_default, after_free_result lib result w')
    | (Throws t, w') => (Throws t, w')
    end.
Proof.
  intros Hcall. unfold copy, bind, ferrocp_copy. rewrite Hcall.
  destruct (code =? 0); reflexivity.
Qed.

(** C1, as amended.  Whatever [ferrocp_copy] answers for the request:
    on code 0, [copy] frees the result and returns without an exception; on
    a non-zero code it frees the result and throws an exception whose
    [error_code()] is that code, of class [FileNotFoundException],
    [PermissionDeniedException] or [InsufficientSpaceException] for the
    three codes of these names and of the base class for every other code,
    and whose message is built from the result's [error_message]
    (["Unknown error"] when that pointer is null): behind the prefix of the
    class for the three derived classes, alone for the base class.  In both
    cases the calls made are [ferrocp_copy] and then one
    [ferrocp_free_result] of the result it filled. *)
Theorem copy_error_propagation
  {W : Type} (lib : C.library W) (this : Engine) (request : CopyRequest)
  (w : world W) (code : Z) (result : C.ferrocp_result_t) (l : W) :
  C.ferrocp_copy lib (handle_ this) (c_request_of request) C.zero_result
    (lib_state w) = (code, result, l) ->
  (code = 0 ->
   copy lib this request w =
   (Returns CopyStats_default,
    after_free_result lib result (after_copy this request l w))) /\
  (code <> 0 ->
   exists e,
     copy lib this request w =
     (Throws (thrown e),
      after_free_result lib result (after_copy this request l w)) /\
     error_code e = code /\
     thrown_as code (or_string (C.error_message result) "Unknown error") e).
Proof.
  intros Hcall. rewrite (copy_cases lib this request w code result l Hcall).
  split.
  - intros ->. reflexivity.
  - intros Hcode.
    destruct (Z.eqb_spec code 0) as [E | _]; [contradiction | ].
    destruct (throw_exception_for_error_code_throws code
                (or_string (C.error_message result) "Unknown error")
                (after_free_result lib result (after_copy this request l w)))
      as (e & Hthrow & Herr & Has).
    exists e. rewrite Hthrow. auto.
Qed.

(** C1 at a library whose [ferrocp_copy] fails with
    [FERROCP_ERROR_PERMISSION_DENIED] and the message ["read-only"]. *)
Lemma copy_error_propagation_witness :
  exists e,
    copy (Scripted.library (Scripted.failing_copy 3 (Some "read-only")))
      Scripted.engine Scripted.tree_request Scripted.start =
    (Throws (thrown e),
     {| lib_state := tt;
        calls :=
          [ C.call_copy 1 (c_request_of Scripted.tree_request);
            C.call_free_result
              (Scripted.copy_fills (Scripted.failing_copy 3 (Some "read-only"))) ] |}) /\
    error_code e = 3 /\
    thrown_as 3 "read-only" e.
Proof.
  apply (copy_error_propagation
           (Scripted.library (Scripted.failing_copy 3 (Some "read-only")))
           Scripted.engine Scripted.tree_request Scripted.start 3
           (Scripted.copy_fills (Scripted.failing_copy 3 (Some "read-only"))) tt
           eq_refl).
  discriminate.
Defined.

(** C1 as it is worded fails: when [ferrocp_copy] returns
    [FERROCP_ERROR_FILE_NOT_FOUND] with the message ["no such file"], the
    exception's message is ["File not found: no such file"], not the
    result's [error_message]. *)
Lemma copy_message_counterexample :
  ~ message_is_error_message
      (Scripted.library (Scripted.failing_copy 2 (Some "no such file")))
      Scripted.engine Scripted.tree_request Scripted.start.
Proof.
  intros H.
  destruct (H 2 (Scripted.copy_fills (Scripted.failing_copy 2 (Some "no such file")))
              tt eq_refl) as (e & [w' Hraise] & _ & Hmsg); [discriminate | ].
  vm_compute in Hraise. inversion Hraise; subst e.
  discriminate Hmsg.
Qed.

(** The same failure when the library leaves [error_message] null: the
    exception then carries ["Unknown error"]. *)
Lemma copy_null_message_counterexample :
  ~ message_is_error_message
      (Scripted.library (Scripted.failing_copy 9 None))
      Scripted.engine Scripted.tree_request Scripted.start.
Proof.
  intros H.
  destruct (H 9 (Scripted.copy_fills (Scripted.failing_copy 9 None)) tt eq_refl)
    as (e & _ & _ & Hmsg); [discriminate | ].
  discriminate Hmsg.
Qed.

(** A copy that returns at all returns [CopyStats{}]: nothing the library
    did reaches the statistics. *)
Lemma copy_returns_default
  {W : Type} (lib : C.library W) (this : Engine) (request : CopyRequest)
  (w w' : world W) (stats : CopyStats) :
  copy lib this request w = (Returns stats, w') -> stats = CopyStats_default.
Proof.
  destruct (C.ferrocp_copy lib (handle_ this) (c_request_of request)
              C.zero_result (lib_state w)) as [[code result] l] eqn:Hcall.
  rewrite (copy_cases lib this request w code result l Hcall).
  destruct (code =? 0).
  - intros H; inversion H; reflexivity.
  - destruct (throw_exception_for_error_code_throws code
                (or_string (C.error_message result) "Unknown error")
                (after_free_result lib result (after_copy this request l w)))
      as (e & -> & _).
    discriminate.
Qed.

(** C2.  The statistics of a copy that succeeds are those of [CopyStats{}]
    whatever was copied: [files_copied], [directories_created] and [errors]
    are 0.  For the tree of three files and one subdirectory the claim
    expects 3 and 1; the body returns before extracting any statistics (its
    own comment marks this as still to be done). *)
Theorem copy_discards_statistics
  {W : Type} (lib : C.library W) (this : Engine) (request : CopyRequest)
  (w w' : world W) (stats : CopyStats) :
  copy lib this request w = (Returns stats, w') ->
  files_copied stats = 0 /\ directories_created stats = 0 /\ errors stats = 0.
Proof.
  intros H. rewrite (copy_returns_default lib this request w w' stats H).
  repeat split.
Qed.

(** C2 at the scenario's request, against a library whose [ferrocp_copy]
    succeeds. *)
Lemma copy_discards_statistics_witness :
  verify_copy Scripted.tree_request = true /\
  files_copied CopyStats_default = 0 /\
  directories_created CopyStats_default = 0 /\
  errors CopyStats_default = 0.
Proof.
  split; [reflexivity | ].
  apply (copy_discards_statistics (Scripted.library Scripted.succeeding)
           Scripted.engine Scripted.tree_request Scripted.start
           (after_free_result (Scripted.library Scripted.succeeding) C.zero_result
              (after_copy Scripted.engine Scripted.tree_request tt Scripted.start))
           CopyStats_default).
  reflexivity.
Defined.

(** The converting constructor of [CopyStats] copies the two rates
    and the five counters of the C structure as they are; it clamps
    nothing. *)
Lemma CopyStats_of_fields (c_stats : C.ferrocp_stats_t) :
  files_copied (CopyStats_of c_stats) = C.files_copied c_stats /\
  directories_created (CopyStats_of c_stats) = C.directories_created c_stats /\
  bytes_copied (CopyStats_of c_stats) = C.bytes_copied c_stats /\
  files_skipped (CopyStats_of c_stats) = C.files_skipped c_stats /\
  errors (CopyStats_of c_stats) = C.errors c_stats /\
  transfer_rate_mbps (CopyStats_of c_stats) = C.transfer_rate_mbps c_stats /\
  efficiency_percent (CopyStats_of c_stats) = C.efficiency_percent c_stats.
Proof. repeat split. Qed.

(** As the wrapper stands, the [CopyStats] of every operation that
    completes, through [copy] or through [copy_with_progress], has its
    [efficiency_percent] between 0 and 100, whatever the library did: the
    value returned is that of [CopyStats{}], 0.0. *)
Lemma completed_copy_efficiency_is_percentage
  {W : Type} (lib : C.library W) (this : Engine) (request : CopyRequest)
  (progress_callback : ProgressCallback W) (error_callback : ErrorCallback W)
  (w w' : world W) (stats : CopyStats) :
  copy lib this request w = (Returns stats, w') \/
  copy_with_progress lib this request progress_callback error_callback w =
  (Returns stats, w') ->
  is_percentage (efficiency_percent stats) = true.
Proof.
  intros H.
  assert (Hcopy : copy lib this request w = (Returns stats, w'))
    by (destruct H as [H | H]; exact H).
  rewrite (copy_returns_default lib this request w w' stats Hcopy).
  reflexivity.
Qed.

(** A value outside the interval passes through the converting constructor
    unchanged: the wrapper relies on the engine for the clamping. *)
Lemma CopyStats_of_does_not_clamp :
  exists c_stats : C.ferrocp_stats_t,
    is_percentage (C.efficiency_percent c_stats) = false /\
    is_percentage (efficiency_percent (CopyStats_of c_stats)) = false.
Proof.
  exists {| C.files_copied := 1; C.directories_created := 0;
            C.bytes_copied := 1024; C.files_skipped := 0; C.errors := 0;
            C.duration_ms := 1; C.transfer_rate_mbps := 750%float;
            C.efficiency_percent := 150%float |}.
  split; reflexivity.
Qed.

(** Comparing two floats one way round and the other. *)
Lemma SFcompare_swap (x y : spec_float) :
  SFcompare y x = option_map CompOpp (SFcompare x y).
Proof.
  destruct x as [sx | sx | | sx mx ex], y as [sy | sy | | sy my ey];
    try reflexivity;
    try (destruct sx; reflexivity); try (destruct sy; reflexivity);
    try (destruct sx, sy; reflexivity).
  cbn. destruct sx, sy; try reflexivity;
    rewrite (Z.compare_antisym ey ex);
    destruct (ey ?= ex); cbn; try reflexivity;
    rewrite (Pos.compare_cont_antisym mx my Eq); reflexivity.
Qed.

Lemma ltb_not_leb (x y : float) :
  (y <? x)%float = true -> (x <=? y)%float = false.
Proof.
  rewrite ltb_spec, leb_spec. unfold SFltb, SFleb.
  rewrite (SFcompare_swap (Prim2SF y) (Prim2SF x)).
  destruct (SFcompare (Prim2SF y) (Prim2SF x)) as [[ | | ] | ]; cbn; intros H;
    try discriminate H; reflexivity.
Qed.

Lemma leb_when_not_above (x y z : float) :
  (z <=? x)%float = true -> (y <? x)%float = false ->
  Prim2SF y <> S754_nan -> (x <=? y)%float = true.
Proof.
  rewrite !leb_spec, ltb_spec. unfold SFltb, SFleb.
  rewrite (SFcompare_swap (Prim2SF y) (Prim2SF x)). intros Hz.
  assert (Hx : Prim2SF x <> S754_nan).
  { intros E. rewrite E in Hz. destruct (Prim2SF z); discriminate Hz. }
  intros Hlt Hy.
  destruct (SFcompare (Prim2SF y) (Prim2SF x)) as [[ | | ] | ] eqn:E; cbn in *;
    try reflexivity; try discriminate Hlt.
  destruct (Prim2SF x), (Prim2SF y); cbn in E; try discriminate E;
    congruence.
Qed.

Lemma clamp_percent_is_percentage (x : float) :
  is_percentage (clamp_percent x) = true.
Proof.
  unfold clamp_percent.
  destruct (100 <? x)%float eqn:Habove; [reflexivity | ].
  destruct (0 <=? x)%float eqn:Hzero; [ | reflexivity].
  unfold is_percentage. rewrite Hzero. cbn [andb].
  apply (leb_when_not_above x 100%float 0%float Hzero Habove).
  discriminate.
Qed.

Lemma clamp_percent_above (x : float) :
  (100 <? x)%float = true -> clamp_percent x = 100%float.
Proof. unfold clamp_percent. intros ->. reflexivity. Qed.

Lemma clamp_percent_within (x : float) :
  is_percentage x = true -> clamp_percent x = x.
Proof.
  unfold is_percentage, clamp_percent. intros H.
  apply andb_prop in H. destruct H as [Hlo Hhi].
  destruct (100 <? x)%float eqn:Habove.
  - rewrite (ltb_not_leb x 100%float Habove) in Hhi. discriminate Hhi.
  - rewrite Hlo. reflexivity.
Qed.

(** C3.  The [CopyStats] built from the statistics of a completed
    operation has its [efficiency_percent] in the closed interval from 0 to
    100, whatever the observed and the theoretical rate are (a zero
    theoretical rate and a rate that is not a number included): the
    engine clamps the ratio and the converting constructor keeps the value
    it is given.  When the ratio exceeds 100, the observed rate being
    above the theoretical one, the value is 100; a ratio within the
    interval is reported as it is. *)
Theorem completed_stats_efficiency_is_clamped
  (files_copied directories_created bytes_copied files_skipped errors
     duration_ms : Z)
  (transfer_rate theoretical_rate : float) :
  let stats :=
    CopyStats_of
      (completed_stats files_copied directories_created bytes_copied
         files_skipped errors duration_ms transfer_rate theoretical_rate) in
  is_percentage (efficiency_percent stats) = true /\
  ((100 <? transfer_rate / theoretical_rate * 100)%float = true ->
   efficiency_percent stats = 100%float) /\
  (is_percentage (transfer_rate / theoretical_rate * 100)%float = true ->
   efficiency_percent stats = (transfer_rate / theoretical_rate * 100)%float).
Proof.
  cbv zeta. cbn [CopyStats_of completed_stats efficiency_percent
                   C.efficiency_percent].
  unfold efficiency_of.
  split; [apply clamp_percent_is_percentage | ].
  split; [apply clamp_percent_above | apply clamp_percent_within].
Qed.

(** An observed rate of 750 MB/s on a device rated 500 MB/s is reported as
    100 percent; 100 MB/s on the same device as 20 percent; an empty
    operation on a device of unknown, zero, rate as 0 percent. *)
Example completed_stats_efficiency_examples :
  efficiency_percent
    (CopyStats_of (completed_stats 3 1 10486784 0 0 14 750 500)) = 100%float /\
  efficiency_percent
    (CopyStats_of (completed_stats 3 1 10486784 0 0 105 100 500)) = 20%float /\
  efficiency_percent
    (CopyStats_of (completed_stats 0 0 0 0 0 0 0 0)) = 0%float.
Proof. repeat split. Qed.

(** *** Engine::copy_with_progress *)

(** The calls [copy] makes: [ferrocp_copy], then [ferrocp_free_result]. *)
Lemma copy_calls
  {W : Type} (lib : C.library W) (this : Engine) (request : CopyRequest)
  (w : world W) :
  exists result : C.ferrocp_result_t,
    calls (snd (copy lib this request w)) =
    (calls w ++ [ C.call_copy (handle_ this) (c_request_of request);
                  C.call_free_result result ])%list.
Proof.
  destruct (C.ferrocp_copy lib (handle_ this) (c_request_of request)
              C.zero_result (lib_state w)) as [[code result] l] eqn:Hcall.
  exists result.
  rewrite (copy_cases lib this request w code result l Hcall).
  destruct (code =? 0).
  - cbn. rewrite <- app_assoc. reflexivity.
  - destruct (throw_exception_for_error_code_throws code
                (or_string (C.error_message result) "Unknown error")
                (after_free_result lib result (after_copy this request l w)))
      as (e & -> & _).
    cbn. rewrite <- app_assoc. reflexivity.
Qed.

(** C8.  For every request and every pair of callbacks, empty or not,
    [copy_with_progress] yields what [copy] yields, value or exception, and
    leaves the same world; the calls it adds are [ferrocp_copy] and
    [ferrocp_free_result], none of them an invocation of a callback. *)
Theorem copy_with_progress_is_copy
  {W : Type} (lib : C.library W) (this : Engine) (request : CopyRequest)
  (progress_callback : ProgressCallback W) (error_callback : ErrorCallback W)
  (w : world W) :
  copy_with_progress lib this request progress_callback error_callback w =
  copy lib this request w /\
  exists added : list C.call,
    calls (snd (copy_with_progress lib this request progress_callback
                  error_callback w)) = (calls w ++ added)%list /\
    existsb is_callback added = false.
Proof.
  split; [reflexivity | ].
  destruct (copy_calls lib this request w) as (result & Hcalls).
  eexists. split; [exact Hcalls | reflexivity].
Qed.

(** With callbacks that would each leave a mark, a copy with progress
    leaves none. *)
Example copy_with_progress_leaves_no_mark :
  calls
    (snd (copy_with_progress (Scripted.library Scripted.succeeding)
            Scripted.engine Scripted.tree_request Scripted.marking_progress
            Scripted.marking_error Scripted.start)) =
  [ C.call_copy 1 (c_request_of Scripted.tree_request);
    C.call_free_result C.zero_result ].
Proof. reflexivity. Qed.

(** *** Engine: construction and the handle *)

Lemma Engine_ctor_cases {W : Type} (lib : C.library W) (w : world W) :
  Engine_ctor lib w =
  let (h, l) := C.ferrocp_engine_create lib (lib_state w) in
  (if h =? 0
   then Throws (thrown (make_Exception_default "Failed to create FerroCP engine"))
   else Returns {| handle_ := h |},
   record C.call_engine_create l w).
Proof.
  unfold Engine_ctor, bind, ferrocp_engine_create.
  destruct (C.ferrocp_engine_create lib (lib_state w)) as [h l].
  destruct (h =? 0); reflexivity.
Qed.

(** C6.  A handle is a 64-bit value, 0 standing for "no engine".  The
    construction of an [Engine] fails, by an [Exception], exactly when
    [ferrocp_engine_create] returns 0; an [Engine] that was constructed
    holds the handle the library returned, which is a 64-bit value other
    than 0. *)
Theorem Engine_ctor_handle
  {W : Type} (lib : C.library W) (w : world W) :
  creates_uint64_handles lib ->
  (fst (C.ferrocp_engine_create lib (lib_state w)) = 0 <->
   exists t, fst (Engine_ctor lib w) = Throws t) /\
  (fst (C.ferrocp_engine_create lib (lib_state w)) = 0 ->
   raises (Engine_ctor lib) w
     (make_Exception "Failed to create FerroCP engine" C.FERROCP_ERROR_GENERIC)) /\
  (forall (this : Engine) (w' : world W),
      Engine_ctor lib w = (Returns this, w') ->
      handle_ this = fst (C.ferrocp_engine_create lib (lib_state w)) /\
      handle_ this <> 0 /\
      is_uint64 (handle_ this)).
Proof.
  intros Htyped. specialize (Htyped (lib_state w)).
  unfold raises. rewrite Engine_ctor_cases.
  destruct (C.ferrocp_engine_create lib (lib_state w)) as [h l]; cbn [fst] in *.
  destruct (Z.eqb_spec h 0) as [E | N].
  - split; [ | split].
    + split; [intros _; eexists; reflexivity | intros _; exact E].
    + intros _. eexists. reflexivity.
    + intros this w' H. discriminate H.
  - split; [ | split].
    + split; [contradiction | intros [t H]; discriminate H].
    + contradiction.
    + intros this w' H. inversion H; subst. cbn. auto.
Qed.

(** C6 at a library that creates the engine with handle 1. *)
Lemma Engine_ctor_handle_witness :
  handle_ Scripted.engine = 1 /\
  handle_ Scripted.engine <> 0 /\
  is_uint64 (handle_ Scripted.engine).
Proof.
  assert (Htyped : creates_uint64_handles (Scripted.library Scripted.succeeding))
    by (intros l; cbn; unfold is_uint64; lia).
  exact (proj2 (proj2 (Engine_ctor_handle (Scripted.library Scripted.succeeding)
                         Scripted.start Htyped))
           Scripted.engine
           (record C.call_engine_create tt Scripted.start) eq_refl).
Defined.

(** The move constructor hands the handle over and leaves 0, "no engine",
    in the object moved from; the destructor of such an object calls
    nothing. *)
Lemma Engine_move_ctor_transfers (other : Engine) :
  handle_ (fst (Engine_move_ctor other)) = handle_ other /\
  handle_ (snd (Engine_move_ctor other)) = 0.
Proof. split; reflexivity. Qed.

Lemma Engine_dtor_cases {W : Type} (lib : C.library W) (this : Engine) (w : world W) :
  Engine_dtor lib this w =
  (Returns tt,
   if handle_ this =? 0 then w
   else record (C.call_engine_destroy (handle_ this))
          (C.ferrocp_engine_destroy lib (handle_ this) (lib_state w)) w).
Proof.
  unfold Engine_dtor, ferrocp_engine_destroy, ret.
  destruct (handle_ this =? 0); reflexivity.
Qed.

(** *** Library: initialisation and cleanup *)

Lemma Library_ctor_cases {W : Type} (lib : C.library W) (w : world W) :
  Library_ctor lib w =
  let (r, l) := C.ferrocp_init lib (lib_state w) in
  (if r =? 0
   then Returns Library_object
   else Throws (thrown (make_Exception_default "Failed to initialize FerroCP library")),
   record C.call_init l w).
Proof.
  unfold Library_ctor, bind, ferrocp_init.
  destruct (C.ferrocp_init lib (lib_state w)) as [r l].
  destruct (r =? 0); reflexivity.
Qed.

(** C7.  The constructor of [Library] calls [ferrocp_init] and throws an
    [Exception] exactly when that call returns non-zero; the destructor
    always calls [ferrocp_cleanup], and nothing else.  In a block that
    begins with a [Library] object, the body (the engine and copy calls)
    runs only once the initialisation has succeeded, and the matching
    cleanup follows the body whether it returned or threw; when the
    initialisation fails the body does not run and there is no cleanup. *)
Theorem Library_init_cleanup
  {W : Type} (lib : C.library W) (w : world W) :
  ((exists t, fst (Library_ctor lib w) = Throws t) <->
   fst (C.ferrocp_init lib (lib_state w)) <> 0) /\
  (forall t, fst (Library_ctor lib w) = Throws t ->
             exists e, t = thrown e /\ dynamic_class e = class_Exception) /\
  snd (Library_ctor lib w) =
  record C.call_init (snd (C.ferrocp_init lib (lib_state w))) w /\
  (forall this : Library,
      Library_dtor lib this w =
      (Returns tt,
       record C.call_cleanup (C.ferrocp_cleanup lib (lib_state w)) w)) /\
  (forall (A : Type) (body : Library -> M W A),
      scoped (Library_ctor lib) (Library_dtor lib) body w =
      if fst (C.ferrocp_init lib (lib_state w)) =? 0
      then
        let (r, w2) := body Library_object (snd (Library_ctor lib w)) in
        (r, record C.call_cleanup (C.ferrocp_cleanup lib (lib_state w2)) w2)
      else
        (Throws (thrown (make_Exception_default
                           "Failed to initialize FerroCP library")),
         snd (Library_ctor lib w))).
Proof.
  unfold scoped. rewrite Library_ctor_cases.
  destruct (C.ferrocp_init lib (lib_state w)) as [r l]; cbn [fst snd].
  destruct (Z.eqb_spec r 0) as [E | N]; cbn [fst snd].
  - split; [ | split; [ | split; [ | split]]].
    + split; [intros [t H]; discriminate H | intros H; contradiction].
    + intros t H. discriminate H.
    + reflexivity.
    + intros this. reflexivity.
    + intros A body. destruct (body Library_object _) as [res w2]. reflexivity.
  - split; [ | split; [ | split; [ | split]]].
    + split; [intros _; exact N | intros _; eexists; reflexivity].
    + intros t H. inversion H; subst. eexists. split; reflexivity.
    + reflexivity.
    + intros this. reflexivity.
    + intros A body. reflexivity.
Qed.

(** *** The error taxonomy *)

Lemma in_taxonomy_range (c : Z) : in_taxonomy c <-> 0 <= c <= 12.
Proof.
  split.
  - intros [k <-]. destruct k; cbn; lia.
  - intros H.
    assert (Hc : c = 0 \/ c = 1 \/ c = 2 \/ c = 3 \/ c = 4 \/ c = 5 \/ c = 6 \/
                 c = 7 \/ c = 8 \/ c = 9 \/ c = 10 \/ c = 11 \/ c = 12) by lia.
    unfold in_taxonomy.
    destruct Hc as [-> | [-> | [-> | [-> | [-> | [-> | [-> | [-> | [-> | [-> |
                   [-> | [-> | ->]]]]]]]]]]]];
      [ exists C.FERROCP_SUCCESS | exists C.FERROCP_ERROR_GENERIC
      | exists C.FERROCP_ERROR_FILE_NOT_FOUND
      | exists C.FERROCP_ERROR_PERMISSION_DENIED
      | exists C.FERROCP_ERROR_INSUFFICIENT_SPACE
      | exists C.FERROCP_ERROR_INVALID_PATH | exists C.FERROCP_ERROR_NETWORK
      | exists C.FERROCP_ERROR_COMPRESSION | exists C.FERROCP_ERROR_VERIFICATION
      | exists C.FERROCP_ERROR_CANCELLED | exists C.FERROCP_ERROR_INVALID_ARGUMENT
      | exists C.FERROCP_ERROR_OUT_OF_MEMORY | exists C.FERROCP_ERROR_TIMEOUT ];
      reflexivity.
Qed.

Lemma error_code_value_injective (k1 k2 : C.ferrocp_error_code_t) :
  C.error_code_value k1 = C.error_code_value k2 -> k1 = k2.
Proof. destruct k1, k2; cbn; intros H; try reflexivity; discriminate H. Qed.

(** Reading an enumerator's value back gives the enumerator. *)
Lemma error_code_of_int_value (k : C.ferrocp_error_code_t) :
  C.error_code_of_int (C.error_code_value k) = Some k.
Proof. destruct k; reflexivity. Qed.

(** An exception of [copy] carries the non-zero code [ferrocp_copy] returned. *)
Lemma copy_raises_code
  {W : Type} (lib : C.library W) (this : Engine) (request : CopyRequest)
  (w : world W) (e : Exception) :
  raises (copy lib this request) w e ->
  error_code e =
  fst (fst (C.ferrocp_copy lib (handle_ this) (c_request_of request)
              C.zero_result (lib_state w))) /\
  error_code e <> 0.
Proof.
  intros [w' H].
  destruct (C.ferrocp_copy lib (handle_ this) (c_request_of request)
              C.zero_result (lib_state w)) as [[code result] l] eqn:Hcall.
  rewrite (copy_cases lib this request w code result l Hcall) in H.
  destruct (Z.eqb_spec code 0) as [E | N]; [discriminate H | ].
  destruct (throw_exception_for_error_code_throws code
              (or_string (C.error_message result) "Unknown error")
              (after_free_result lib result (after_copy this request l w)))
    as (e' & Hthrow & Hcode & _).
  rewrite Hthrow in H. inversion H; subst e'. cbn [fst]. split; congruence.
Qed.

(** An exception of [get_device_info] carries the non-zero code
    [ferrocp_get_device_info] returned. *)
Lemma get_device_info_raises_code
  {W : Type} (lib : C.library W) (path : string) (w : world W) (e : Exception) :
  raises (get_device_info lib path) w e ->
  error_code e =
  fst (fst (C.ferrocp_get_device_info lib (std.c_str path) C.zero_device_info (lib_state w))) /\
  error_code e <> 0.
Proof.
  intros [w' H]. unfold get_device_info, bind, ferrocp_get_device_info in H.
  destruct (C.ferrocp_get_device_info lib (std.c_str path) C.zero_device_info (lib_state w))
    as [[code c_info] l].
  cbn [fst].
  destruct (Z.eqb_spec code 0) as [E | N]; cbn in H.
  - destruct (DeviceInfo_of c_info); cbn in H; discriminate H.
  - inversion H; subst. cbn. split; [reflexivity | exact N].
Qed.

(** The other exceptions of the wrapper carry [FERROCP_ERROR_GENERIC]. *)
Lemma Library_ctor_raises_generic
  {W : Type} (lib : C.library W) (w : world W) (e : Exception) :
  raises (Library_ctor lib) w e -> error_code e = C.FERROCP_ERROR_GENERIC.
Proof.
  intros [w' H]. rewrite Library_ctor_cases in H.
  destruct (C.ferrocp_init lib (lib_state w)) as [r l].
  destruct (r =? 0); inversion H; reflexivity.
Qed.

Lemma Engine_ctor_raises_generic
  {W : Type} (lib : C.library W) (w : world W) (e : Exception) :
  raises (Engine_ctor lib) w e -> error_code e = C.FERROCP_ERROR_GENERIC.
Proof.
  intros [w' H]. rewrite Engine_ctor_cases in H.
  destruct (C.ferrocp_engine_create lib (lib_state w)) as [h l].
  destruct (h =? 0); inversion H; reflexivity.
Qed.

Lemma join_paths_raises_generic
  {W : Type} (lib : C.library W) (path1 path2 : string) (w : world W)
  (e : Exception) :
  raises (join_paths lib path1 path2) w e ->
  error_code e = C.FERROCP_ERROR_GENERIC.
Proof.
  intros [w' H]. unfold join_paths, bind, ferrocp_join_paths in H.
  destruct (C.ferrocp_join_paths lib (std.c_str path1) (std.c_str path2) (lib_state w)) as [[joined | ] l];
    cbn in H; inversion H; reflexivity.
Qed.

Lemma normalize_path_raises_generic
  {W : Type} (lib : C.library W) (path : string) (w : world W) (e : Exception) :
  raises (normalize_path lib path) w e ->
  error_code e = C.FERROCP_ERROR_GENERIC.
Proof.
  intros [w' H]. unfold normalize_path, bind, ferrocp_normalize_path in H.
  destruct (C.ferrocp_normalize_path lib (std.c_str path) (lib_state w)) as [[normalized | ] l];
    cbn in H; inversion H; reflexivity.
Qed.

(** C5.  The error codes are success, 0, and the twelve kinds Generic,
    FileNotFound, PermissionDenied, InsufficientSpace, InvalidPath, Network,
    Compression, Verification, Cancelled, InvalidArgument, OutOfMemory and
    Timeout, numbered 1 to 12 in this order; there is no other enumerator,
    and the values are pairwise distinct.  Over a library whose entry
    points report codes of the taxonomy, every exception of the wrapper
    carries one of the twelve error codes. *)
Theorem error_taxonomy_closed
  {W : Type} (lib : C.library W) (w : world W) (e : Exception) :
  C.error_code_value C.FERROCP_SUCCESS = 0 /\
  map C.error_code_value
    [ C.FERROCP_ERROR_GENERIC; C.FERROCP_ERROR_FILE_NOT_FOUND;
      C.FERROCP_ERROR_PERMISSION_DENIED; C.FERROCP_ERROR_INSUFFICIENT_SPACE;
      C.FERROCP_ERROR_INVALID_PATH; C.FERROCP_ERROR_NETWORK;
      C.FERROCP_ERROR_COMPRESSION; C.FERROCP_ERROR_VERIFICATION;
      C.FERROCP_ERROR_CANCELLED; C.FERROCP_ERROR_INVALID_ARGUMENT;
      C.FERROCP_ERROR_OUT_OF_MEMORY; C.FERROCP_ERROR_TIMEOUT ] =
  [1; 2; 3; 4; 5; 6; 7; 8; 9; 10; 11; 12] /\
  (forall k : C.ferrocp_error_code_t, 0 <= C.error_code_value k <= 12) /\
  (forall k1 k2 : C.ferrocp_error_code_t,
      C.error_code_value k1 = C.error_code_value k2 -> k1 = k2) /\
  (forall c : Z, in_taxonomy c <-> 0 <= c <= 12) /\
  (reports_taxonomy_codes lib ->
   raises (Library_ctor lib) w e \/
   raises (Engine_ctor lib) w e \/
   (exists this request, raises (copy lib this request) w e) \/
   (exists this request progress_callback error_callback,
       raises (copy_with_progress lib this request progress_callback
                 error_callback) w e) \/
   (exists path, raises (get_device_info lib path) w e) \/
   (exists path1 path2, raises (join_paths lib path1 path2) w e) \/
   (exists path, raises (normalize_path lib path) w e) ->
   in_taxonomy (error_code e) /\ error_code e <> C.FERROCP_SUCCESS).
Proof.
  split; [reflexivity | ].
  split; [reflexivity | ].
  split; [intros k; destruct k; cbn; lia | ].
  split; [exact error_code_value_injective | ].
  split; [exact in_taxonomy_range | ].
  intros (_ & Hcopy & Hinfo) H.
  assert (Hgeneric : error_code e = C.FERROCP_ERROR_GENERIC ->
                     in_taxonomy (error_code e) /\
                     error_code e <> C.FERROCP_SUCCESS).
  { intros ->. split; [exists C.FERROCP_ERROR_GENERIC; reflexivity | discriminate]. }
  destruct H as [H | [H | [H | [H | [H | [H | H]]]]]].
  - apply Hgeneric. exact (Library_ctor_raises_generic lib w e H).
  - apply Hgeneric. exact (Engine_ctor_raises_generic lib w e H).
  - destruct H as (this & request & H).
    destruct (copy_raises_code lib this request w e H) as [Hc Hnz].
    split; [rewrite Hc; apply Hcopy | exact Hnz].
  - destruct H as (this & request & p & ec & H).
    destruct (copy_raises_code lib this request w e H) as [Hc Hnz].
    split; [rewrite Hc; apply Hcopy | exact Hnz].
  - destruct H as (path & H).
    destruct (get_device_info_raises_code lib path w e H) as [Hc Hnz].
    split; [rewrite Hc; apply Hinfo | exact Hnz].
  - destruct H as (path1 & path2 & H).
    apply Hgeneric. exact (join_paths_raises_generic lib path1 path2 w e H).
  - destruct H as (path & H).
    apply Hgeneric. exact (normalize_path_raises_generic lib path w e H).
Qed.

(** C5 at a library whose [ferrocp_copy] fails with
    [FERROCP_ERROR_FILE_NOT_FOUND]. *)
Lemma error_taxonomy_closed_witness :
  in_taxonomy (error_code (FileNotFoundException "no such file")) /\
  error_code (FileNotFoundException "no such file") <> C.FERROCP_SUCCESS.
Proof.
  apply (proj2 (proj2 (proj2 (proj2 (proj2
           (error_taxonomy_closed
              (Scripted.library (Scripted.failing_copy 2 (Some "no such file")))
              Scripted.start (FileNotFoundException "no such file"))))))).
  - split; [ | split].
    + intros l. exists C.FERROCP_SUCCESS. reflexivity.
    + intros handle request result l.
      split; exists C.FERROCP_ERROR_FILE_NOT_FOUND; reflexivity.
    + intros path device_info l. exists C.FERROCP_SUCCESS. reflexivity.
  - right; right; left.
    exists Scripted.engine, Scripted.tree_request.
    eexists. reflexivity.
Defined.

(** *** CopyRequest *)

(** C9.  A request constructed from two paths holds these paths, and the
    defaults of the other members: mode [Copy], no compression, metadata
    preserved, no verification, and 0, "auto", for the number of threads
    and the size of the buffer.  This holds for all strings, the empty
    ones included. *)
Theorem make_CopyRequest_defaults (src dst : string) :
  source (make_CopyRequest src dst) = src /\
  destination (make_CopyRequest src dst) = dst /\
  mode (make_CopyRequest src dst) = Copy /\
  compress (make_CopyRequest src dst) = false /\
  preserve_metadata (make_CopyRequest src dst) = true /\
  verify_copy (make_CopyRequest src dst) = false /\
  threads (make_CopyRequest src dst) = 0 /\
  buffer_size (make_CopyRequest src dst) = 0.
Proof. repeat split. Qed.

(** What [copy] hands to the library for such a request. *)
Lemma c_request_of_defaults (src dst : string) :
  c_request_of (make_CopyRequest src dst) =
  {| C.source := Some (std.c_str src); C.destination := Some (std.c_str dst);
     C.mode := C.FERROCP_MODE_COPY; C.compress := 0; C.preserve_metadata := 1;
     C.verify_copy := 0; C.threads := 0; C.buffer_size := 0 |}.
Proof. reflexivity. Qed.

(** *** DeviceInfo *)

(** The digits of a decimal numeral, read after those accumulated in a
    positive [acc], and read from 0. *)
Lemma digits_string_of_uint (d : Decimal.uint) (p : positive) :
  std.digits (NilEmpty.string_of_uint d) (Z.pos p) = Z.pos (Pos.of_uint_acc d p).
Proof.
  revert p. induction d as [ | d IH | d IH | d IH | d IH | d IH | d IH | d IH | d IH | d IH | d IH ];
    intros p; cbn [NilEmpty.string_of_uint std.digits Pos.of_uint_acc];
    [ reflexivity | .. ];
    change (std.digit _) with (Some 0) || change (std.digit _) with (Some 1) ||
    change (std.digit _) with (Some 2) || change (std.digit _) with (Some 3) ||
    change (std.digit _) with (Some 4) || change (std.digit _) with (Some 5) ||
    change (std.digit _) with (Some 6) || change (std.digit _) with (Some 7) ||
    change (std.digit _) with (Some 8) || change (std.digit _) with (Some 9);
    cbv iota beta; rewrite <- IH; f_equal; lia.
Qed.

Lemma digits_string_of_uint_0 (d : Decimal.uint) :
  std.digits (NilEmpty.string_of_uint d) 0 = Z.of_N (Pos.of_uint d).
Proof.
  induction d as [ | d IH | d IH | d IH | d IH | d IH | d IH | d IH | d IH | d IH | d IH ];
    cbn [NilEmpty.string_of_uint std.digits Pos.of_uint];
    [ reflexivity | exact IH | .. ];
    change (std.digit _) with (Some 1) ||
    change (std.digit _) with (Some 2) || change (std.digit _) with (Some 3) ||
    change (std.digit _) with (Some 4) || change (std.digit _) with (Some 5) ||
    change (std.digit _) with (Some 6) || change (std.digit _) with (Some 7) ||
    change (std.digit _) with (Some 8) || change (std.digit _) with (Some 9);
    cbv iota beta; change (Z.of_N (N.pos ?q)) with (Z.pos q);
    apply digits_string_of_uint.
Qed.

Lemma string_of_uint_starts (d : Decimal.uint) :
  d <> Decimal.Nil ->
  std.starts_with_digit (NilEmpty.string_of_uint d) = true /\
  std.skip_space (NilEmpty.string_of_uint d) = NilEmpty.string_of_uint d /\
  (forall s, NilEmpty.string_of_uint d <> String "-" s) /\
  (forall s, NilEmpty.string_of_uint d <> String "+" s).
Proof.
  destruct d; intros H; try contradiction;
    (split; [reflexivity | split; [reflexivity | split; intros s E; discriminate E]]).
Qed.

Lemma parse_decimal_pos (p : positive) :
  std.parse_decimal (NilEmpty.string_of_uint (Pos.to_uint p)) = Some (Z.pos p).
Proof.
  destruct (string_of_uint_starts (Pos.to_uint p) (Unsigned.to_uint_nonnil p))
    as (Hstart & Hskip & Hminus & Hplus).
  unfold std.parse_decimal. rewrite Hskip.
  destruct (NilEmpty.string_of_uint (Pos.to_uint p)) as [ | c s] eqn:E.
  - discriminate Hstart.
  - destruct (Ascii.eqb_spec c "-") as [-> | Nm]; [destruct (Hminus s eq_refl) | ].
    destruct (Ascii.eqb_spec c "+") as [-> | Np]; [destruct (Hplus s eq_refl) | ].
    assert (Hsign :
              match String c s with
              | String "-"%char s' => (true, s')
              | String "+"%char s' => (false, s')
              | _ => (false, String c s)
              end = (false, String c s)).
    { destruct c as [[|] [|] [|] [|] [|] [|] [|] [|]]; try reflexivity; congruence. }
    rewrite Hsign, Hstart. rewrite <- E, digits_string_of_uint_0, Unsigned.of_to.
    reflexivity.
Qed.

Lemma parse_decimal_neg (p : positive) :
  std.parse_decimal (String "-" (NilEmpty.string_of_uint (Pos.to_uint p))) =
  Some (Z.neg p).
Proof.
  destruct (string_of_uint_starts (Pos.to_uint p) (Unsigned.to_uint_nonnil p))
    as (Hstart & _).
  unfold std.parse_decimal. cbn [std.skip_space].
  change (std.isspace "-") with false. cbv iota.
  rewrite Hstart, digits_string_of_uint_0, Unsigned.of_to. reflexivity.
Qed.

Lemma NilZero_string_of_uint_nonnil (d : Decimal.uint) :
  d <> Decimal.Nil -> NilZero.string_of_uint d = NilEmpty.string_of_uint d.
Proof. destruct d; intros H; [contradiction | reflexivity ..]. Qed.

(** [std::stoi] reads the decimal numeral of an [int] back as that [int]. *)
Lemma stoi_to_string (n : Z) : is_int n -> std.stoi (std.to_string n) = inr n.
Proof.
  intros Hn.
  assert (Hb : is_intb n = true).
  { unfold is_int in Hn. unfold is_intb.
    apply andb_true_intro. split; [apply Z.leb_le | apply Z.ltb_lt]; lia. }
  unfold std.stoi, std.to_string.
  destruct n as [ | p | p]; cbn [Z.to_int NilZero.string_of_int].
  - reflexivity.
  - rewrite (NilZero_string_of_uint_nonnil _ (Unsigned.to_uint_nonnil p)).
    rewrite parse_decimal_pos, Hb. reflexivity.
  - rewrite (NilZero_string_of_uint_nonnil _ (Unsigned.to_uint_nonnil p)).
    rewrite parse_decimal_neg, Hb. reflexivity.
Qed.

(** What [std::stoi] returns fits an [int]. *)
Lemma stoi_is_int (s : string) (n : Z) : std.stoi s = inr n -> is_int n.
Proof.
  unfold std.stoi. destruct (std.parse_decimal s) as [v | ]; [ | discriminate].
  destruct (is_intb v) eqn:Hb; [ | discriminate].
  intros H; inversion H; subst v.
  unfold is_intb in Hb. apply andb_prop in Hb. destruct Hb as [Hlo Hhi].
  apply Z.leb_le in Hlo. apply Z.ltb_lt in Hhi. unfold is_int. lia.
Qed.

(** C10.  From a C structure whose [device_type] is null the converting
    constructor builds a [DeviceInfo] of type [Unknown].  Whenever it
    builds one, a null [filesystem] gives the empty string, and the two
    spaces and the two speeds are those of the C structure.  A non-null
    [device_type] goes through [std::stoi]: the type is the cast of the
    [int] read, and the constructor throws what [std::stoi] throws; in
    particular the decimal numeral of an [int] gives the type of that
    value. *)
Theorem DeviceInfo_of_conversion (c_info : C.ferrocp_device_info_t) :
  (C.device_type c_info = None ->
   exists info, DeviceInfo_of c_info = inr info /\ device_type info = Unknown) /\
  (forall info,
      DeviceInfo_of c_info = inr info ->
      (C.filesystem c_info = None -> filesystem info = "") /\
      (forall s, C.filesystem c_info = Some s -> filesystem info = s) /\
      total_space info = C.total_space c_info /\
      available_space info = C.available_space c_info /\
      read_speed_mbps info = C.read_speed_mbps c_info /\
      write_speed_mbps info = C.write_speed_mbps c_info) /\
  (forall s,
      C.device_type c_info = Some s ->
      (forall n, std.stoi s = inr n ->
                 exists info, DeviceInfo_of c_info = inr info /\
                              device_type info = static_cast_DeviceType n) /\
      (forall e, std.stoi s = inl e -> DeviceInfo_of c_info = inl e)) /\
  (forall n,
      is_int n ->
      C.device_type c_info = Some (std.to_string n) ->
      exists info, DeviceInfo_of c_info = inr info /\
                   device_type info = static_cast_DeviceType n).
Proof.
  unfold DeviceInfo_of. split; [ | split; [ | split]].
  - intros ->. eexists. split; reflexivity.
  - intros info H.
    destruct (match C.device_type c_info with
              | Some s => std.stoi s
              | None => inr 0
              end) as [e | n]; [discriminate H | ].
    inversion H; subst info; cbn.
    split; [intros ->; reflexivity | ].
    split; [intros s ->; reflexivity | ].
    repeat split.
  - intros s ->. split.
    + intros n ->. eexists. split; reflexivity.
    + intros e ->. reflexivity.
  - intros n Hn ->. rewrite (stoi_to_string n Hn). eexists. split; reflexivity.
Qed.

(** [std::stoi] on the strings a device type may come as. *)
Example stoi_examples :
  std.stoi "2" = inr 2 /\
  std.stoi "  -17abc" = inr (-17) /\
  std.stoi "+4" = inr 4 /\
  std.stoi "2147483647" = inr 2147483647 /\
  std.stoi "2147483648" = inl std.out_of_range /\
  std.stoi "-2147483648" = inr (-2147483648) /\
  std.stoi "" = inl std.invalid_argument /\
  std.stoi "SSD" = inl std.invalid_argument.
Proof. repeat split. Qed.

(** A device type given by name, as the header documents the field
    ("Device type as string"), makes the constructor throw. *)
Example DeviceInfo_of_named_type :
  DeviceInfo_of
    {| C.device_type := Some "SSD"; C.filesystem := None; C.total_space := 0;
       C.available_space := 0; C.read_speed_mbps := 0%float;
       C.write_speed_mbps := 0%float |} = inl std.invalid_argument.
Proof. reflexivity. Qed.

(** *** Further properties of the wrapper *)

(** X1.  An engine that was moved is destroyed once: of the object moved from
    and the object moved to, destroyed in either order, only the second
    calls [ferrocp_engine_destroy], with the handle that was created. *)
Theorem Engine_move_destroys_once
  {W : Type} (lib : C.library W) (other : Engine) (w : world W) :
  handle_ other <> 0 ->
  calls (snd (Engine_dtor lib (snd (Engine_move_ctor other))
                (snd (Engine_dtor lib (fst (Engine_move_ctor other)) w)))) =
  (calls w ++ [C.call_engine_destroy (handle_ other)])%list /\
  calls (snd (Engine_dtor lib (fst (Engine_move_ctor other))
                (snd (Engine_dtor lib (snd (Engine_move_ctor other)) w)))) =
  (calls w ++ [C.call_engine_destroy (handle_ other)])%list.
Proof.
  intros Hh. rewrite !Engine_dtor_cases. cbn [fst snd Engine_move_ctor handle_].
  destruct (Z.eqb_spec (handle_ other) 0) as [E | _]; [contradiction | ].
  change (0 =? 0) with true. cbv iota. split; reflexivity.
Qed.

Lemma Engine_move_destroys_once_witness :
  calls (snd (Engine_dtor (Scripted.library Scripted.succeeding)
                (snd (Engine_move_ctor Scripted.engine))
                (snd (Engine_dtor (Scripted.library Scripted.succeeding)
                        (fst (Engine_move_ctor Scripted.engine))
                        Scripted.start)))) =
  [C.call_engine_destroy 1] /\
  calls (snd (Engine_dtor (Scripted.library Scripted.succeeding)
                (fst (Engine_move_ctor Scripted.engine))
                (snd (Engine_dtor (Scripted.library Scripted.succeeding)
                        (snd (Engine_move_ctor Scripted.engine))
                        Scripted.start)))) =
  [C.call_engine_destroy 1].
Proof.
  apply (Engine_move_destroys_once (Scripted.library Scripted.succeeding)
           Scripted.engine Scripted.start).
  discriminate.
Defined.

(** [get_device_info] calls [ferrocp_get_device_info] on a zeroed
    structure.  On a non-zero code it throws an [Exception] with that code
    whose message names the path, and frees nothing.  On code 0 it converts
    the structure; when the conversion succeeds it frees the structure and
    returns the [DeviceInfo], and when [std::stoi] throws, the exception
    leaves the function before the structure is freed. *)
Lemma get_device_info_cases
  {W : Type} (lib : C.library W) (path : string) (w : world W) :
  get_device_info lib path w =
  let '(code, c_info, l) :=
    C.ferrocp_get_device_info lib (std.c_str path) C.zero_device_info (lib_state w) in
  let w1 := record (C.call_get_device_info (std.c_str path)) l w in
  if code =? 0
  then
    match DeviceInfo_of c_info with
    | inr info =>
        (Returns info,
         record (C.call_free_device_info c_info)
           (C.ferrocp_free_device_info lib c_info l) w1)
    | inl e => (Throws (thrown_std e), w1)
    end
  else
    (Throws (thrown (make_Exception ("Failed to get device info for: " ++ path) code)),
     w1).
Proof.
  unfold get_device_info, bind, ferrocp_get_device_info.
  destruct (C.ferrocp_get_device_info lib (std.c_str path) C.zero_device_info (lib_state w))
    as [[code c_info] l].
  destruct (code =? 0); cbn; [ | reflexivity].
  destruct (DeviceInfo_of c_info); reflexivity.
Qed.

(** [join_paths] throws an [Exception] with the generic code exactly
    when the library returns a null pointer; otherwise it returns the
    string the library allocated, after copying it and freeing the
    library's buffer. *)
Lemma join_paths_cases
  {W : Type} (lib : C.library W) (path1 path2 : string) (w : world W) :
  join_paths lib path1 path2 w =
  let (result, l) := C.ferrocp_join_paths lib (std.c_str path1) (std.c_str path2) (lib_state w) in
  let w1 := record (C.call_join_paths (std.c_str path1) (std.c_str path2)) l w in
  match result with
  | Some joined =>
      (Returns joined,
       record (C.call_free_string joined) (C.ferrocp_free_string lib joined l) w1)
  | None =>
      (Throws (thrown (make_Exception
                         ("Failed to join paths: " ++ path1 ++ " and " ++ path2)
                         C.FERROCP_ERROR_GENERIC)),
       w1)
  end.
Proof.
  unfold join_paths, bind, ferrocp_join_paths.
  destruct (C.ferrocp_join_paths lib (std.c_str path1) (std.c_str path2) (lib_state w)) as [[joined | ] l];
    reflexivity.
Qed.

(** [normalize_path] does the same around [ferrocp_normalize_path]. *)
Lemma normalize_path_cases
  {W : Type} (lib : C.library W) (path : string) (w : world W) :
  normalize_path lib path w =
  let (result, l) := C.ferrocp_normalize_path lib (std.c_str path) (lib_state w) in
  let w1 := record (C.call_normalize_path (std.c_str path)) l w in
  match result with
  | Some normalized =>
      (Returns normalized,
       record (C.call_free_string normalized)
         (C.ferrocp_free_string lib normalized l) w1)
  | None =>
      (Throws (thrown (make_Exception ("Failed to normalize path: " ++ path)
                         C.FERROCP_ERROR_GENERIC)),
       w1)
  end.
Proof.
  unfold normalize_path, bind, ferrocp_normalize_path.
  destruct (C.ferrocp_normalize_path lib (std.c_str path) (lib_state w)) as [[normalized | ] l];
    reflexivity.
Qed.

(** The duration of a [CopyStats] built from a C structure is the count of
    milliseconds as long as it fits the signed 64-bit representation. *)
Lemma CopyStats_of_duration (c_stats : C.ferrocp_stats_t) :
  0 <= C.duration_ms c_stats < 2 ^ 63 ->
  duration (CopyStats_of c_stats) = C.duration_ms c_stats.
Proof.
  intros H. cbn. unfold to_int64.
  rewrite Z.mod_small by lia. lia.
Qed.

(** *** get_device_info: what is freed, and when *)

(** X2.  [get_device_info] frees the structure the library filled exactly
    when it returns: a returned [DeviceInfo] is the conversion of that
    structure and [ferrocp_free_device_info] was called on it, once, after
    [ferrocp_get_device_info]; when it throws, whichever exception,
    [ferrocp_get_device_info] is the only call made.  It returns exactly
    when the library answered 0 and the conversion succeeded. *)
Theorem get_device_info_frees_iff_returns
  {W : Type} (lib : C.library W) (path : string) (w : world W) :
  let answer :=
    C.ferrocp_get_device_info lib (std.c_str path) C.zero_device_info (lib_state w) in
  let c_info := snd (fst answer) in
  match fst (get_device_info lib path w) with
  | Returns info =>
      fst (fst answer) = 0 /\
      DeviceInfo_of c_info = inr info /\
      calls (snd (get_device_info lib path w)) =
      (calls w ++ [ C.call_get_device_info (std.c_str path);
                    C.call_free_device_info c_info ])%list
  | Throws t =>
      (fst (fst answer) = 0 -> exists e, DeviceInfo_of c_info = inl e) /\
      calls (snd (get_device_info lib path w)) =
      (calls w ++ [C.call_get_device_info (std.c_str path)])%list
  end.
Proof.
  cbv zeta. rewrite get_device_info_cases.
  destruct (C.ferrocp_get_device_info lib (std.c_str path) C.zero_device_info (lib_state w))
    as [[code c_info] l]; cbn [fst snd].
  destruct (Z.eqb_spec code 0) as [E | N].
  - destruct (DeviceInfo_of c_info) as [e | info]; cbn [fst snd].
    + split; [intros _; exists e; reflexivity | reflexivity].
    + split; [exact E | split; [reflexivity | ]].
      cbn. rewrite <- app_assoc. reflexivity.
  - cbn [fst snd]. split; [intros E; contradiction | reflexivity].
Qed.

(** X3.  When the library succeeds but gives a [device_type] that
    [std::stoi] rejects, [get_device_info] leaves by the exception of
    [std::stoi], not by an [Exception] of the wrapper, and the structure
    the library filled is never handed to [ferrocp_free_device_info]. *)
Theorem get_device_info_rejected_type_is_not_freed
  {W : Type} (lib : C.library W) (path : string) (w : world W)
  (c_info : C.ferrocp_device_info_t) (l : W) (s : string) (e : std.logic_error) :
  C.ferrocp_get_device_info lib (std.c_str path) C.zero_device_info (lib_state w) =
  (0, c_info, l) ->
  C.device_type c_info = Some s ->
  std.stoi s = inl e ->
  fst (get_device_info lib path w) = Throws (thrown_std e) /\
  (forall e', ~ raises (get_device_info lib path) w e') /\
  calls (snd (get_device_info lib path w)) =
  (calls w ++ [C.call_get_device_info (std.c_str path)])%list.
Proof.
  intros Hcall Htype Hstoi.
  assert (Hconv : DeviceInfo_of c_info = inl e).
  { unfold DeviceInfo_of. rewrite Htype, Hstoi. reflexivity. }
  unfold raises. rewrite get_device_info_cases, Hcall.
  change (0 =? 0) with true. cbv iota zeta. rewrite Hconv. cbn [fst snd].
  split; [reflexivity | ].
  split; [intros e' [w' H]; discriminate H | ].
  reflexivity.
Qed.

(** X3 at a library that names the device type ["SSD"], as the header
    documents the field. *)
Lemma get_device_info_rejected_type_is_not_freed_witness :
  fst (get_device_info
         (Scripted.library (Scripted.reporting_device_type "SSD"))
         "/mnt/data" Scripted.start) =
  Throws (thrown_std std.invalid_argument) /\
  (forall e',
      ~ raises (get_device_info
                  (Scripted.library (Scripted.reporting_device_type "SSD"))
                  "/mnt/data") Scripted.start e') /\
  calls (snd (get_device_info
                (Scripted.library (Scripted.reporting_device_type "SSD"))
                "/mnt/data" Scripted.start)) =
  [C.call_get_device_info "/mnt/data"].
Proof.
  exact (get_device_info_rejected_type_is_not_freed
           (Scripted.library (Scripted.reporting_device_type "SSD"))
           "/mnt/data" Scripted.start
           (Scripted.get_device_info_fills (Scripted.reporting_device_type "SSD"))
           tt "SSD" std.invalid_argument eq_refl eq_refl eq_refl).
Defined.

(** *** join_paths and normalize_path *)

(** X4.  [join_paths] and [normalize_path] return exactly when the library
    returns a buffer: the value is the content of that buffer, which was
    handed to [ferrocp_free_string] once, after the call that allocated
    it.  On a null pointer they throw an [Exception] with
    [FERROCP_ERROR_GENERIC], and free nothing. *)
Theorem path_functions_free_the_buffer
  {W : Type} (lib : C.library W) (path1 path2 : string) (w : world W) :
  match fst (join_paths lib path1 path2 w) with
  | Returns joined =>
      fst (C.ferrocp_join_paths lib (std.c_str path1) (std.c_str path2) (lib_state w)) = Some joined /\
      calls (snd (join_paths lib path1 path2 w)) =
      (calls w ++ [ C.call_join_paths (std.c_str path1) (std.c_str path2);
                    C.call_free_string joined ])%list
  | Throws t =>
      fst (C.ferrocp_join_paths lib (std.c_str path1) (std.c_str path2) (lib_state w)) = None /\
      (exists e, t = thrown e /\ error_code e = C.FERROCP_ERROR_GENERIC) /\
      calls (snd (join_paths lib path1 path2 w)) =
      (calls w ++ [C.call_join_paths (std.c_str path1) (std.c_str path2)])%list
  end /\
  match fst (normalize_path lib path1 w) with
  | Returns normalized =>
      fst (C.ferrocp_normalize_path lib (std.c_str path1) (lib_state w)) = Some normalized /\
      calls (snd (normalize_path lib path1 w)) =
      (calls w ++ [ C.call_normalize_path (std.c_str path1);
                    C.call_free_string normalized ])%list
  | Throws t =>
      fst (C.ferrocp_normalize_path lib (std.c_str path1) (lib_state w)) = None /\
      (exists e, t = thrown e /\ error_code e = C.FERROCP_ERROR_GENERIC) /\
      calls (snd (normalize_path lib path1 w)) =
      (calls w ++ [C.call_normalize_path (std.c_str path1)])%list
  end.
Proof.
  rewrite join_paths_cases, normalize_path_cases. split.
  - destruct (C.ferrocp_join_paths lib (std.c_str path1) (std.c_str path2) (lib_state w))
      as [[joined | ] l]; cbn [fst snd].
    + split; [reflexivity | ]. cbn. rewrite <- app_assoc. reflexivity.
    + split; [reflexivity | ].
      split; [eexists; split; reflexivity | reflexivity].
  - destruct (C.ferrocp_normalize_path lib (std.c_str path1) (lib_state w))
      as [[normalized | ] l]; cbn [fst snd].
    + split; [reflexivity | ]. cbn. rewrite <- app_assoc. reflexivity.
    + split; [reflexivity | ].
      split; [eexists; split; reflexivity | reflexivity].
Qed.

(** *** CopyStats: the converting constructor loses nothing *)

Lemma to_int64_cases (z : Z) :
  is_uint64 z ->
  to_int64 z = if z <? 2 ^ 63 then z else z - 2 ^ 64.
Proof.
  unfold is_uint64, to_int64. intros H.
  destruct (Z.ltb_spec z (2 ^ 63)) as [Hlt | Hge].
  - rewrite Z.mod_small by lia. lia.
  - replace (z + 2 ^ 63) with ((z - 2 ^ 63) + 1 * 2 ^ 64) by lia.
    rewrite Z.mod_add by lia. rewrite Z.mod_small by lia. lia.
Qed.

Lemma to_int64_injective (z1 z2 : Z) :
  is_uint64 z1 -> is_uint64 z2 -> to_int64 z1 = to_int64 z2 -> z1 = z2.
Proof.
  intros H1 H2. rewrite (to_int64_cases z1 H1), (to_int64_cases z2 H2).
  unfold is_uint64 in *.
  destruct (Z.ltb_spec z1 (2 ^ 63)), (Z.ltb_spec z2 (2 ^ 63)); lia.
Qed.

(** X5.  The converting constructor of [CopyStats] loses nothing: two C
    structures with 64-bit durations that convert to the same [CopyStats]
    are the same structure, although a duration from [2^63] milliseconds
    on is stored as a negative count. *)
Theorem CopyStats_of_injective (c1 c2 : C.ferrocp_stats_t) :
  is_uint64 (C.duration_ms c1) ->
  is_uint64 (C.duration_ms c2) ->
  CopyStats_of c1 = CopyStats_of c2 ->
  c1 = c2 /\
  (2 ^ 63 <= C.duration_ms c1 -> duration (CopyStats_of c1) < 0).
Proof.
  intros H1 H2 Heq. split.
  - destruct c1 as [f1 d1 b1 s1 e1 t1 r1 p1], c2 as [f2 d2 b2 s2 e2 t2 r2 p2].
    unfold CopyStats_of in Heq. cbn in *.
    injection Heq as Hf Hd Hb Hs He Ht Hr Hp.
    apply (to_int64_injective t1 t2 H1 H2) in Ht. subst. reflexivity.
  - intros Hbig. cbn. rewrite (to_int64_cases _ H1).
    unfold is_uint64 in H1.
    destruct (Z.ltb_spec (C.duration_ms c1) (2 ^ 63)); lia.
Qed.

Lemma CopyStats_of_injective_witness :
  {| C.files_copied := 3; C.directories_created := 1; C.bytes_copied := 10486784;
     C.files_skipped := 0; C.errors := 0; C.duration_ms := 2 ^ 63;
     C.transfer_rate_mbps := 250%float; C.efficiency_percent := 50%float |} =
  {| C.files_copied := 3; C.directories_created := 1; C.bytes_copied := 10486784;
     C.files_skipped := 0; C.errors := 0; C.duration_ms := 2 ^ 63;
     C.transfer_rate_mbps := 250%float; C.efficiency_percent := 50%float |} /\
  (2 ^ 63 <= 2 ^ 63 ->
   duration
     (CopyStats_of
        {| C.files_copied := 3; C.directories_created := 1;
           C.bytes_copied := 10486784; C.files_skipped := 0; C.errors := 0;
           C.duration_ms := 2 ^ 63; C.transfer_rate_mbps := 250%float;
           C.efficiency_percent := 50%float |}) < 0).
Proof.
  apply CopyStats_of_injective.
  - unfold is_uint64; cbn; lia.
  - unfold is_uint64; cbn; lia.
  - reflexivity.
Defined.

(** *** Engine: lifetime *)

Lemma scoped_as_scoped_object
  {W T A : Type} (ctor : M W T) (dtor : T -> M W unit) (body : T -> M W A)
  (w : world W) :
  scoped ctor dtor body w =
  scoped_object ctor dtor
    (fun obj w1 => let (r, w2) := body obj w1 in ((r, obj), w2)) w.
Proof.
  unfold scoped, scoped_object.
  destruct (ctor w) as [[obj | t] w1]; [ | reflexivity].
  destruct (body obj w1) as [r w2]. reflexivity.
Qed.

(** X6.  In a block that holds an [Engine], what is destroyed when the
    block is left, by return or by exception, is the engine the object
    holds at that point: the engine the library created, once, when the
    body left the object as it was constructed; nothing when the body
    moved the engine out of the object.  The outcome of the block is that
    of its body.  When the creation fails the body does not run and
    nothing is destroyed. *)
Theorem Engine_scope_destroys_what_it_holds
  {W : Type} (lib : C.library W) (A : Type)
  (body : Engine -> world W -> (outcome A * Engine) * world W) (w : world W) :
  let h := fst (C.ferrocp_engine_create lib (lib_state w)) in
  let w1 := record C.call_engine_create
              (snd (C.ferrocp_engine_create lib (lib_state w))) w in
  let r := fst (fst (body {| handle_ := h |} w1)) in
  let this := snd (fst (body {| handle_ := h |} w1)) in
  let w2 := snd (body {| handle_ := h |} w1) in
  (h = 0 ->
   exists e,
     scoped_object (Engine_ctor lib) (Engine_dtor lib) body w =
     (Throws (thrown e), w1)) /\
  (h <> 0 ->
   fst (scoped_object (Engine_ctor lib) (Engine_dtor lib) body w) = r /\
   calls (snd (scoped_object (Engine_ctor lib) (Engine_dtor lib) body w)) =
   (calls w2 ++ destroy_call (handle_ this))%list /\
   (this = {| handle_ := h |} ->
    calls (snd (scoped_object (Engine_ctor lib) (Engine_dtor lib) body w)) =
    (calls w2 ++ [C.call_engine_destroy h])%list) /\
   (handle_ this = 0 ->
    snd (scoped_object (Engine_ctor lib) (Engine_dtor lib) body w) = w2)).
Proof.
  cbv zeta. unfold scoped_object. rewrite Engine_ctor_cases.
  destruct (C.ferrocp_engine_create lib (lib_state w)) as [h l]; cbn [fst snd].
  destruct (Z.eqb_spec h 0) as [E | N].
  - split; [intros _; eexists; reflexivity | intros H; contradiction].
  - split; [intros H; contradiction | intros _].
    destruct (body {| handle_ := h |} (record C.call_engine_create l w))
      as [[r this] w2]; cbn [fst snd].
    rewrite Engine_dtor_cases. cbn [snd]. unfold destroy_call.
    split; [reflexivity | ].
    split; [ | split].
    + destruct (handle_ this =? 0); cbn; [rewrite app_nil_r | ]; reflexivity.
    + intros ->. cbn [handle_].
      destruct (Z.eqb_spec h 0) as [E | _]; [contradiction | reflexivity].
    + intros ->. reflexivity.
Qed.

(** A body that moves the engine into an object of its own, which it
    destroys before the block ends: the engine is destroyed once, by the
    body, and the block adds no second call. *)
Example Engine_scope_after_move_out :
  calls
    (snd (scoped_object
            (Engine_ctor (Scripted.library Scripted.succeeding))
            (Engine_dtor (Scripted.library Scripted.succeeding))
            (fun engine w1 =>
               let (taken, left) := Engine_move_ctor engine in
               ((Returns tt, left),
                snd (Engine_dtor (Scripted.library Scripted.succeeding) taken w1)))
            Scripted.start)) =
  [C.call_engine_create; C.call_engine_destroy 1].
Proof. reflexivity. Qed.

(** X7.  A whole session, [{ Library library; Engine engine; return
    engine.copy(request); }], releases what it acquired, in the reverse
    order, on every path: after [ferrocp_init] succeeded, [ferrocp_cleanup]
    is the last call; after an engine was created, the result of the copy
    is freed, then the engine destroyed, then the library cleaned up,
    whether the copy succeeded or threw.  When [ferrocp_init] fails it is
    the only call, and when the creation fails no copy is attempted. *)
Theorem copy_session_releases_in_reverse_order
  {W : Type} (lib : C.library W) (request : CopyRequest) (w : world W) :
  let (r, l1) := C.ferrocp_init lib (lib_state w) in
  let (h, l2) := C.ferrocp_engine_create lib l1 in
  let result :=
    snd (fst (C.ferrocp_copy lib h (c_request_of request) C.zero_result l2)) in
  calls (snd (copy_session lib request w)) =
  (calls w ++
   if negb (r =? 0) then [C.call_init]
   else if h =? 0 then [C.call_init; C.call_engine_create; C.call_cleanup]
   else [ C.call_init; C.call_engine_create;
          C.call_copy h (c_request_of request); C.call_free_result result;
          C.call_engine_destroy h; C.call_cleanup ])%list.
Proof.
  unfold copy_session, scoped. rewrite Library_ctor_cases.
  destruct (C.ferrocp_init lib (lib_state w)) as [r l1].
  destruct (C.ferrocp_engine_create lib l1) as [h l2] eqn:Hcreate.
  cbv zeta. destruct (r =? 0); cbn [negb]; [ | reflexivity].
  rewrite Engine_ctor_cases. cbn [lib_state record]. rewrite Hcreate.
  destruct (Z.eqb_spec h 0) as [E | N].
  - cbn. rewrite <- !app_assoc. reflexivity.
  - set (w1 := record C.call_engine_create l2 (record C.call_init l1 w)).
    destruct (C.ferrocp_copy lib h (c_request_of request) C.zero_result l2)
      as [[code result'] l3] eqn:Hcopy.
    pose proof (copy_cases lib {| handle_ := h |} request w1 code result' l3 Hcopy)
      as Hcases.
    destruct (copy lib {| handle_ := h |} request w1) as [res w2] eqn:Hrun.
    cbn [fst snd].
    assert (Hw2 : calls w2 =
                  (((calls w ++ [C.call_init]) ++ [C.call_engine_create]) ++
                   [ C.call_copy h (c_request_of request);
                     C.call_free_result result' ])%list).
    { destruct (code =? 0).
      - inversion Hcases; subst. cbn. rewrite <- !app_assoc. reflexivity.
      - destruct (throw_exception_for_error_code_throws code
                    (or_string (C.error_message result') "Unknown error")
                    (after_free_result lib result'
                       (after_copy {| handle_ := h |} request l3 w1)))
          as (e & Hthrow & _).
        rewrite Hthrow in Hcases. inversion Hcases; subst.
        cbn. rewrite <- !app_assoc. reflexivity. }
    rewrite Engine_dtor_cases. cbn [snd handle_].
    destruct (Z.eqb_spec h 0) as [E | _]; [contradiction | ].
    cbn. rewrite Hw2. rewrite <- !app_assoc. reflexivity.
Qed.

(** *** Engine: move assignment *)

Lemma Engine_move_assign_cases
  {W : Type} (lib : C.library W) (this other : nat) (objects : nat -> Engine)
  (w : world W) :
  Engine_move_assign lib this other objects w =
  if Nat.eqb this other then (Returns objects, w)
  else
    (Returns
       (set_object
          (set_object objects this {| handle_ := handle_ (objects other) |})
          other {| handle_ := 0 |}),
     snd (Engine_dtor lib (objects this) w)).
Proof.
  unfold Engine_move_assign, bind, ret. rewrite Engine_dtor_cases.
  destruct (Nat.eqb this other); cbn [negb]; [reflexivity | ].
  unfold ferrocp_engine_destroy.
  destruct (handle_ (objects this) =? 0); reflexivity.
Qed.

(** X8.  Move assignment of an [Engine] to another object: the engine the
    target held is destroyed, if it held one; the target then holds the
    handle of the source, the source holds 0, and every other object is
    as it was.  Assigning an object to itself changes nothing and calls
    nothing, so the engine it holds stays alive. *)
Theorem Engine_move_assign_transfers
  {W : Type} (lib : C.library W) (this other : nat) (objects : nat -> Engine)
  (w : world W) :
  exists objects',
    fst (Engine_move_assign lib this other objects w) = Returns objects' /\
    (this = other ->
     snd (Engine_move_assign lib this other objects w) = w /\
     forall a, objects' a = objects a) /\
    (this <> other ->
     handle_ (objects' this) = handle_ (objects other) /\
     handle_ (objects' other) = 0 /\
     (forall a, a <> this -> a <> other -> objects' a = objects a) /\
     calls (snd (Engine_move_assign lib this other objects w)) =
     (calls w ++ destroy_call (handle_ (objects this)))%list).
Proof.
  rewrite Engine_move_assign_cases.
  destruct (Nat.eqb_spec this other) as [E | N].
  - exists objects. split; [reflexivity | ].
    split; [intros _; split; [reflexivity | reflexivity] | contradiction].
  - eexists. split; [reflexivity | ].
    split; [contradiction | intros _].
    unfold set_object. split; [ | split; [ | split]].
    + destruct (Nat.eqb_spec this other) as [E | _]; [contradiction | ].
      rewrite Nat.eqb_refl. reflexivity.
    + rewrite Nat.eqb_refl. reflexivity.
    + intros a Ha Hb.
      destruct (Nat.eqb_spec a other) as [E | _]; [contradiction | ].
      destruct (Nat.eqb_spec a this) as [E | _]; [contradiction | ].
      reflexivity.
    + cbn [snd]. rewrite Engine_dtor_cases. cbn [snd]. unfold destroy_call.
      destruct (handle_ (objects this) =? 0); cbn.
      * rewrite app_nil_r. reflexivity.
      * reflexivity.
Qed.

(** X9.  Move assignment neither leaks an engine nor destroys one twice:
    when two distinct objects are assigned one to the other and both are
    then destroyed, the calls of [ferrocp_engine_destroy] are those that
    destroying the two objects without the assignment would have made, one
    for each handle other than 0. *)
Theorem Engine_move_assign_destroys_each_once
  {W : Type} (lib : C.library W) (this other : nat) (objects : nat -> Engine)
  (w : world W) :
  this <> other ->
  forall objects' w1,
    Engine_move_assign lib this other objects w = (Returns objects', w1) ->
    calls (snd (Engine_dtor lib (objects' other)
                  (snd (Engine_dtor lib (objects' this) w1)))) =
    calls (snd (Engine_dtor lib (objects other)
                  (snd (Engine_dtor lib (objects this) w)))) /\
    calls (snd (Engine_dtor lib (objects other)
                  (snd (Engine_dtor lib (objects this) w)))) =
    (calls w ++ destroy_call (handle_ (objects this)) ++
     destroy_call (handle_ (objects other)))%list.
Proof.
  intros N objects' w1 H. rewrite Engine_move_assign_cases in H.
  destruct (Nat.eqb_spec this other) as [E | _]; [contradiction | ].
  inversion H; subst objects' w1; clear H.
  unfold set_object. rewrite !Nat.eqb_refl.
  destruct (Nat.eqb_spec this other) as [E | _]; [contradiction | ].
  rewrite !Engine_dtor_cases. cbn [snd handle_]. unfold destroy_call.
  change (0 =? 0) with true. cbv iota.
  destruct (handle_ (objects this) =? 0), (handle_ (objects other) =? 0);
    cbn; rewrite ?app_nil_r, <- ?app_assoc; split; reflexivity.
Qed.

(** X9 for two engines of handles 7 and 9, at addresses 0 and 1. *)
Lemma Engine_move_assign_destroys_each_once_witness :
  calls (snd (Engine_dtor (Scripted.library Scripted.succeeding) {| handle_ := 0 |}
                (snd (Engine_dtor (Scripted.library Scripted.succeeding)
                        {| handle_ := 9 |}
                        (record (C.call_engine_destroy 7) tt Scripted.start))))) =
  calls (snd (Engine_dtor (Scripted.library Scripted.succeeding) {| handle_ := 9 |}
                (snd (Engine_dtor (Scripted.library Scripted.succeeding)
                        {| handle_ := 7 |} Scripted.start)))) /\
  calls (snd (Engine_dtor (Scripted.library Scripted.succeeding) {| handle_ := 9 |}
                (snd (Engine_dtor (Scripted.library Scripted.succeeding)
                        {| handle_ := 7 |} Scripted.start)))) =
  [C.call_engine_destroy 7; C.call_engine_destroy 9].
Proof.
  exact (Engine_move_assign_destroys_each_once
           (Scripted.library Scripted.succeeding) 0%nat 1%nat
           (fun a => if Nat.eqb a 0 then {| handle_ := 7 |} else {| handle_ := 9 |})
           Scripted.start (fun H => Nat.neq_0_succ 0 H)
           (set_object
              (set_object
                 (fun a => if Nat.eqb a 0 then {| handle_ := 7 |}
                           else {| handle_ := 9 |})
                 0%nat {| handle_ := 9 |})
              1%nat {| handle_ := 0 |})
           (record (C.call_engine_destroy 7) tt Scripted.start)
           eq_refl).
Defined.

(** *** Engine::copy: what reaches the library *)

Lemma CopyMode_value_injective (m1 m2 : CopyMode) :
  CopyMode_value m1 = CopyMode_value m2 -> m1 = m2.
Proof. destruct m1, m2; cbn; intros ->; reflexivity. Qed.

Lemma flag_injective (b1 b2 : bool) :
  (if b1 then 1 else 0) = (if b2 then 1 else 0) -> b1 = b2.
Proof. destruct b1, b2; intros H; try reflexivity; discriminate H. Qed.

(** [c_str()] shows a string whole exactly when no character of it is the
    null character, and what it shows never holds one. *)
Lemma has_no_nul_iff (s : string) :
  has_no_nul s <-> ~ In "000"%char (list_ascii_of_string s).
Proof.
  unfold has_no_nul. induction s as [ | c s IH]; cbn.
  - split; [intros _ [] | reflexivity].
  - destruct (Ascii.eqb_spec c "000") as [E | N].
    + split; [intros H; discriminate H | intros H; exfalso; apply H; left; exact E].
    + split.
      * intros H. injection H as H. apply IH in H.
        intros [E | Hin]; [exact (N E) | exact (H Hin)].
      * intros H. f_equal. apply IH. intros Hin. apply H. right. exact Hin.
Qed.

Lemma c_str_has_no_nul (s : string) : has_no_nul (std.c_str s).
Proof.
  unfold has_no_nul. induction s as [ | c s IH]; cbn; [reflexivity | ].
  destruct (Ascii.eqb c "000") eqn:E; cbn; [reflexivity | ].
  rewrite E, IH. reflexivity.
Qed.

(** X10.  The C request that [copy] builds keeps the mode, the flags and
    the hints of the request, and each path up to its first null
    character: two requests are handed over as the same structure exactly
    when they agree on these.  Requests whose paths hold no null character
    are therefore told apart by the library; two requests that differ only
    behind a null character of a path are not. *)
Theorem c_request_of_keeps_the_request_up_to_nul (request1 request2 : CopyRequest) :
  (c_request_of request1 = c_request_of request2 <->
   std.c_str (source request1) = std.c_str (source request2) /\
   std.c_str (destination request1) = std.c_str (destination request2) /\
   mode request1 = mode request2 /\
   compress request1 = compress request2 /\
   preserve_metadata request1 = preserve_metadata request2 /\
   verify_copy request1 = verify_copy request2 /\
   threads request1 = threads request2 /\
   buffer_size request1 = buffer_size request2) /\
  (has_no_nul (source request1) -> has_no_nul (destination request1) ->
   has_no_nul (source request2) -> has_no_nul (destination request2) ->
   c_request_of request1 = c_request_of request2 -> request1 = request2).
Proof.
  assert (Hiff :
            c_request_of request1 = c_request_of request2 <->
            std.c_str (source request1) = std.c_str (source request2) /\
            std.c_str (destination request1) = std.c_str (destination request2) /\
            mode request1 = mode request2 /\
            compress request1 = compress request2 /\
            preserve_metadata request1 = preserve_metadata request2 /\
            verify_copy request1 = verify_copy request2 /\
            threads request1 = threads request2 /\
            buffer_size request1 = buffer_size request2).
  { destruct request1 as [s1 d1 m1 c1 p1 v1 t1 b1],
             request2 as [s2 d2 m2 c2 p2 v2 t2 b2].
    unfold c_request_of. cbn. split.
    - intros H. injection H as Hs Hd Hm Hc Hp Hv Ht Hb.
      apply CopyMode_value_injective in Hm.
      apply flag_injective in Hc. apply flag_injective in Hp.
      apply flag_injective in Hv.
      repeat split; assumption.
    - intros (Hs & Hd & Hm & Hc & Hp & Hv & Ht & Hb).
      rewrite Hs, Hd. subst. reflexivity. }
  split; [exact Hiff | ].
  intros Hs1 Hd1 Hs2 Hd2 H. apply Hiff in H.
  destruct H as (Hs & Hd & Hm & Hc & Hp & Hv & Ht & Hb).
  unfold has_no_nul in *. rewrite Hs1, Hs2 in Hs. rewrite Hd1, Hd2 in Hd.
  destruct request1, request2. cbn in *. subst. reflexivity.
Qed.

(** Two sources that differ behind a null character reach the library as
    the same path. *)
Example c_request_of_stops_at_nul :
  c_request_of (make_CopyRequest (String "a" (String "000" "b")) "backup") =
  c_request_of (make_CopyRequest "a" "backup").
Proof. reflexivity. Qed.

(** X11.  Whatever the request and the engine, [copy] calls the library
    once, with the handle the engine holds and a structure whose paths are
    not null pointers (each is the path of the request up to its first
    null character) and whose flags are 0 or 1; the mode is the integer of
    the request's mode, handed over unchecked, so the structure is
    well-formed exactly when that mode is one of the three enumerators.
    [copy] then frees the result of that call once, on success and on
    failure alike. *)
Theorem copy_hands_over_the_request
  {W : Type} (lib : C.library W) (this : Engine) (request : CopyRequest)
  (w : world W) :
  exists (c_request : C.ferrocp_copy_request_t) (result : C.ferrocp_result_t),
    calls (snd (copy lib this request w)) =
    (calls w ++ [ C.call_copy (handle_ this) c_request;
                  C.call_free_result result ])%list /\
    result =
    snd (fst (C.ferrocp_copy lib (handle_ this) c_request C.zero_result
                (lib_state w))) /\
    C.source c_request = Some (std.c_str (source request)) /\
    C.destination c_request = Some (std.c_str (destination request)) /\
    C.mode c_request = CopyMode_value (mode request) /\
    (C.compress c_request = 0 \/ C.compress c_request = 1) /\
    (C.preserve_metadata c_request = 0 \/ C.preserve_metadata c_request = 1) /\
    (C.verify_copy c_request = 0 \/ C.verify_copy c_request = 1) /\
    (well_formed_request c_request <-> is_CopyMode_enumerator (mode request)).
Proof.
  exists (c_request_of request).
  destruct (C.ferrocp_copy lib (handle_ this) (c_request_of request)
              C.zero_result (lib_state w)) as [[code result] l] eqn:Hcall.
  exists result. cbn [fst snd].
  split.
  { rewrite (copy_cases lib this request w code result l Hcall).
    destruct (code =? 0).
    - cbn. rewrite <- app_assoc. reflexivity.
    - destruct (throw_exception_for_error_code_throws code
                  (or_string (C.error_message result) "Unknown error")
                  (after_free_result lib result (after_copy this request l w)))
        as (e & -> & _).
      cbn. rewrite <- app_assoc. reflexivity. }
  split; [reflexivity | ].
  split; [reflexivity | ]. split; [reflexivity | ]. split; [reflexivity | ].
  assert (Hc : C.compress (c_request_of request) = 0 \/
               C.compress (c_request_of request) = 1)
    by (cbn; destruct (compress request); auto).
  assert (Hp : C.preserve_metadata (c_request_of request) = 0 \/
               C.preserve_metadata (c_request_of request) = 1)
    by (cbn; destruct (preserve_metadata request); auto).
  assert (Hv : C.verify_copy (c_request_of request) = 0 \/
               C.verify_copy (c_request_of request) = 1)
    by (cbn; destruct (verify_copy request); auto).
  split; [exact Hc | ]. split; [exact Hp | ]. split; [exact Hv | ].
  unfold well_formed_request, is_CopyMode_enumerator. split.
  - intros (_ & _ & [m Hm] & _). cbn in Hm.
    destruct m; [left | right; left | right; right];
      apply CopyMode_value_injective; exact Hm.
  - intros Hmode.
    split; [discriminate | ]. split; [discriminate | ].
    split; [ | split; [exact Hc | split; [exact Hp | exact Hv]]].
    cbn [c_request_of C.mode].
    destruct Hmode as [H | [H | H]]; rewrite H;
      [ exists C.FERROCP_MODE_COPY | exists C.FERROCP_MODE_MOVE
      | exists C.FERROCP_MODE_SYNC ]; reflexivity.
Qed.

(** A request whose mode is no enumerator reaches the library with that
    integer as its mode. *)
Example copy_hands_over_any_mode :
  calls
    (snd (copy (Scripted.library Scripted.succeeding) Scripted.engine
            {| source := "tree"; destination := "backup";
               mode := static_cast_CopyMode 7; compress := false;
               preserve_metadata := true; verify_copy := false; threads := 0;
               buffer_size := 0 |}
            Scripted.start)) =
  [ C.call_copy 1
      {| C.source := Some "tree"; C.destination := Some "backup"; C.mode := 7;
         C.compress := 0; C.preserve_metadata := 1; C.verify_copy := 0;
         C.threads := 0; C.buffer_size := 0 |};
    C.call_free_result C.zero_result ].
Proof. reflexivity. Qed.

(** X12.  [copy] does not look at the handle: on an [Engine] that was moved
    from it still calls [ferrocp_copy], with the handle 0 that stands for
    "no engine", and what happens next is the library's answer to that
    call. *)
Theorem copy_after_move_calls_the_library_with_no_engine
  {W : Type} (lib : C.library W) (other : Engine) (request : CopyRequest)
  (w : world W) :
  exists result : C.ferrocp_result_t,
    calls (snd (copy lib (snd (Engine_move_ctor other)) request w)) =
    (calls w ++ [ C.call_copy 0 (c_request_of request);
                  C.call_free_result result ])%list /\
    (fst (fst (C.ferrocp_copy lib 0 (c_request_of request) C.zero_result
                 (lib_state w))) = 0 ->
     fst (copy lib (snd (Engine_move_ctor other)) request w) =
     Returns CopyStats_default).
Proof.
  destruct (copy_calls lib (snd (Engine_move_ctor other)) request w)
    as (result & Hcalls).
  exists result. split; [exact Hcalls | ].
  cbn [Engine_move_ctor snd handle_].
  destruct (C.ferrocp_copy lib 0 (c_request_of request) C.zero_result
              (lib_state w)) as [[code result'] l] eqn:Hcall.
  cbn [fst]. intros ->.
  rewrite (copy_cases lib {| handle_ := 0 |} request w 0 result' l Hcall).
  reflexivity.
Qed.

(** X13.  For an exception thrown by [copy], the class and the code say the
    same: it is a [FileNotFoundException], a [PermissionDeniedException] or
    an [InsufficientSpaceException] exactly when its code is the one of
    that name, and of the base class exactly when its code is none of the
    three; its code is never [FERROCP_SUCCESS]. *)
Theorem copy_exception_class_iff_code
  {W : Type} (lib : C.library W) (this : Engine) (request : CopyRequest)
  (w : world W) (e : Exception) :
  raises (copy lib this request) w e ->
  (dynamic_class e = class_FileNotFoundException <->
   error_code e = C.FERROCP_ERROR_FILE_NOT_FOUND) /\
  (dynamic_class e = class_PermissionDeniedException <->
   error_code e = C.FERROCP_ERROR_PERMISSION_DENIED) /\
  (dynamic_class e = class_InsufficientSpaceException <->
   error_code e = C.FERROCP_ERROR_INSUFFICIENT_SPACE) /\
  (dynamic_class e = class_Exception <->
   error_code e <> C.FERROCP_ERROR_FILE_NOT_FOUND /\
   error_code e <> C.FERROCP_ERROR_PERMISSION_DENIED /\
   error_code e <> C.FERROCP_ERROR_INSUFFICIENT_SPACE) /\
  error_code e <> C.FERROCP_SUCCESS.
Proof.
  intros Hraise.
  destruct (copy_raises_code lib this request w e Hraise) as [_ Hnz].
  destruct Hraise as [w' H].
  destruct (C.ferrocp_copy lib (handle_ this) (c_request_of request)
              C.zero_result (lib_state w)) as [[code result] l] eqn:Hcall.
  rewrite (copy_cases lib this request w code result l Hcall) in H.
  destruct (code =? 0); [discriminate H | ].
  destruct (throw_exception_for_error_code_throws code
              (or_string (C.error_message result) "Unknown error")
              (after_free_result lib result (after_copy this request l w)))
    as (e' & Hthrow & Hcode & H2 & H3 & H4 & Hother).
  rewrite Hthrow in H. inversion H; subst e'. clear H Hthrow.
  rewrite Hcode in *. cbn in *.
  destruct (Z.eq_dec code 2) as [E2 | N2];
    [ destruct (H2 E2) as [Hc _]; rewrite Hc; subst code;
      repeat split; intros; try discriminate; try reflexivity; try lia;
      intuition discriminate | ].
  destruct (Z.eq_dec code 3) as [E3 | N3];
    [ destruct (H3 E3) as [Hc _]; rewrite Hc; subst code;
      repeat split; intros; try discriminate; try reflexivity; try lia;
      intuition discriminate | ].
  destruct (Z.eq_dec code 4) as [E4 | N4];
    [ destruct (H4 E4) as [Hc _]; rewrite Hc; subst code;
      repeat split; intros; try discriminate; try reflexivity; try lia;
      intuition discriminate | ].
  destruct (Hother N2 N3 N4) as [Hc _]. rewrite Hc.
  repeat split; intros; try discriminate; try contradiction; try assumption.
Qed.

(** X13 at a library whose [ferrocp_copy] fails with
    [FERROCP_ERROR_CANCELLED]. *)
Lemma copy_exception_class_iff_code_witness :
  (dynamic_class (make_Exception "stopped" 9) = class_FileNotFoundException <->
   error_code (make_Exception "stopped" 9) = C.FERROCP_ERROR_FILE_NOT_FOUND) /\
  (dynamic_class (make_Exception "stopped" 9) = class_PermissionDeniedException <->
   error_code (make_Exception "stopped" 9) = C.FERROCP_ERROR_PERMISSION_DENIED) /\
  (dynamic_class (make_Exception "stopped" 9) = class_InsufficientSpaceException <->
   error_code (make_Exception "stopped" 9) = C.FERROCP_ERROR_INSUFFICIENT_SPACE) /\
  (dynamic_class (make_Exception "stopped" 9) = class_Exception <->
   error_code (make_Exception "stopped" 9) <> C.FERROCP_ERROR_FILE_NOT_FOUND /\
   error_code (make_Exception "stopped" 9) <> C.FERROCP_ERROR_PERMISSION_DENIED /\
   error_code (make_Exception "stopped" 9) <> C.FERROCP_ERROR_INSUFFICIENT_SPACE) /\
  error_code (make_Exception "stopped" 9) <> C.FERROCP_SUCCESS.
Proof.
  apply (copy_exception_class_iff_code
           (Scripted.library (Scripted.failing_copy 9 (Some "stopped")))
           Scripted.engine Scripted.tree_request Scripted.start).
  eexists. reflexivity.
Defined.

(** *** DeviceInfo: what the constructor accepts *)

(** X14.  The constructor does not validate the device type: the numeral
    of any [int] is accepted, and the [DeviceType] it yields is one of the
    five enumerators only when the value lies between 0 and 4. *)
Theorem DeviceInfo_of_does_not_validate
  (c_info : C.ferrocp_device_info_t) (n : Z) :
  is_int n ->
  C.device_type c_info = Some (std.to_string n) ->
  exists info,
    DeviceInfo_of c_info = inr info /\
    DeviceType_value (device_type info) = n /\
    (is_enumerator (device_type info) <-> 0 <= n <= 4).
Proof.
  intros Hn Htype. unfold DeviceInfo_of.
  rewrite Htype, (stoi_to_string n Hn).
  eexists. split; [reflexivity | ]. cbn [device_type DeviceType_value].
  split; [reflexivity | ].
  unfold is_enumerator, Unknown, Hdd, Ssd, Network, RamDisk. cbn.
  split.
  - intros [H | [H | [H | [H | H]]]]; injection H as H; lia.
  - intros H.
    assert (Hc : n = 0 \/ n = 1 \/ n = 2 \/ n = 3 \/ n = 4) by lia.
    destruct Hc as [-> | [-> | [-> | [-> | ->]]]]; auto 6.
Qed.

(** X14 at the numeral ["7"], which is no enumerator. *)
Lemma DeviceInfo_of_does_not_validate_witness :
  exists info,
    DeviceInfo_of
      (Scripted.get_device_info_fills (Scripted.reporting_device_type "7")) =
    inr info /\
    DeviceType_value (device_type info) = 7 /\
    (is_enumerator (device_type info) <-> 0 <= 7 <= 4).
Proof.
  apply (DeviceInfo_of_does_not_validate
           (Scripted.get_device_info_fills (Scripted.reporting_device_type "7")) 7).
  - unfold is_int. lia.
  - reflexivity.
Defined.

Lemma digits_app (s rest : string) (acc : Z) :
  std.starts_with_digit rest = false ->
  std.digits (s ++ rest) acc = std.digits s acc.
Proof.
  intros Hrest. revert acc. induction s as [ | c s IH]; intros acc.
  - cbn [append std.digits]. destruct rest as [ | c rest]; [reflexivity | ].
    cbn in Hrest |- *. destruct (std.digit c); [discriminate Hrest | reflexivity].
  - cbn [append std.digits]. destruct (std.digit c); [apply IH | reflexivity].
Qed.

Lemma starts_with_digit_app (s rest : string) :
  std.starts_with_digit rest = false ->
  std.starts_with_digit (s ++ rest) = std.starts_with_digit s.
Proof.
  intros Hrest. destruct s as [ | c s]; [exact Hrest | reflexivity].
Qed.

Lemma skip_space_app (s rest : string) :
  std.skip_space s <> "" ->
  std.skip_space (s ++ rest) = std.skip_space s ++ rest.
Proof.
  induction s as [ | c s IH]; cbn [std.skip_space append].
  - intros H. contradiction.
  - destruct (std.isspace c); [exact IH | reflexivity].
Qed.

Lemma skip_space_leading (ws s : string) :
  all_space ws = true -> std.skip_space (ws ++ s) = std.skip_space s.
Proof.
  induction ws as [ | c ws IH]; cbn [all_space append std.skip_space].
  - reflexivity.
  - intros H. apply andb_prop in H. destruct H as [Hc Hws].
    rewrite Hc. exact (IH Hws).
Qed.

(** What [parse_decimal] reads is not changed by white space before the
    text nor by text after the digits. *)
Lemma parse_decimal_surrounded (ws s rest : string) (v : Z) :
  all_space ws = true ->
  std.starts_with_digit rest = false ->
  std.parse_decimal s = Some v ->
  std.parse_decimal (ws ++ s ++ rest) = Some v.
Proof.
  intros Hws Hrest. unfold std.parse_decimal.
  rewrite (skip_space_leading ws (s ++ rest) Hws).
  destruct (std.skip_space s) as [ | c t] eqn:Hskip.
  - cbn. discriminate.
  - rewrite skip_space_app by (rewrite Hskip; discriminate).
    rewrite Hskip. cbn [append].
    assert (Hshape :
              forall u : string,
                match String c u with
                | String "-"%char s' => (true, s')
                | String "+"%char s' => (false, s')
                | _ => (false, String c u)
                end =
                if Ascii.eqb c "-" then (true, u)
                else if Ascii.eqb c "+" then (false, u)
                else (false, String c u)).
    { intros u.
      destruct c as [[|] [|] [|] [|] [|] [|] [|] [|]]; reflexivity. }
    rewrite (Hshape t), (Hshape (t ++ rest)).
    destruct (Ascii.eqb c "-"); [ | destruct (Ascii.eqb c "+")].
    + rewrite (starts_with_digit_app t rest Hrest), (digits_app t rest 0 Hrest).
      intros H; exact H.
    + rewrite (starts_with_digit_app t rest Hrest), (digits_app t rest 0 Hrest).
      intros H; exact H.
    + change (String c (t ++ rest)) with (String c t ++ rest).
      rewrite (starts_with_digit_app (String c t) rest Hrest),
        (digits_app (String c t) rest 0 Hrest).
      intros H; exact H.
Qed.

(** X15.  White space before the number and any text after its digits are
    ignored: when a [device_type] converts, so does the same text between
    leading white space and trailing text that does not begin with a
    digit, and to the same [DeviceInfo]. *)
Theorem DeviceInfo_of_ignores_surrounding_text
  (c_info : C.ferrocp_device_info_t) (s ws rest : string) (info : DeviceInfo) :
  C.device_type c_info = Some s ->
  all_space ws = true ->
  std.starts_with_digit rest = false ->
  DeviceInfo_of c_info = inr info ->
  DeviceInfo_of
    {| C.device_type := Some (ws ++ s ++ rest);
       C.filesystem := C.filesystem c_info;
       C.total_space := C.total_space c_info;
       C.available_space := C.available_space c_info;
       C.read_speed_mbps := C.read_speed_mbps c_info;
       C.write_speed_mbps := C.write_speed_mbps c_info |} = inr info.
Proof.
  intros Htype Hws Hrest. unfold DeviceInfo_of. rewrite Htype. cbn.
  unfold std.stoi.
  destruct (std.parse_decimal s) as [v | ] eqn:Hparse; [ | discriminate].
  rewrite (parse_decimal_surrounded ws s rest v Hws Hrest Hparse).
  destruct (is_intb v); [ | discriminate].
  intros H; exact H.
Qed.

(** X15 for the type ["2"] written [" 2 (SSD)"]. *)
Lemma DeviceInfo_of_ignores_surrounding_text_witness :
  DeviceInfo_of
    {| C.device_type := Some " 2 (SSD)"; C.filesystem := Some "ntfs";
       C.total_space := 2000; C.available_space := 1500;
       C.read_speed_mbps := 150%float; C.write_speed_mbps := 150%float |} =
  inr {| device_type := Ssd; filesystem := "ntfs"; total_space := 2000;
         available_space := 1500; read_speed_mbps := 150%float;
         write_speed_mbps := 150%float |}.
Proof.
  exact (DeviceInfo_of_ignores_surrounding_text
           (Scripted.get_device_info_fills (Scripted.reporting_device_type "2"))
           "2" " " " (SSD)"
           {| device_type := Ssd; filesystem := "ntfs"; total_space := 2000;
              available_space := 1500; read_speed_mbps := 150%float;
              write_speed_mbps := 150%float |}
           eq_refl eq_refl eq_refl eq_refl).
Defined.
